(** * The service supervisor of [service_manager.py]

    A shallow embedding of [ServiceInfo] and [ServiceManager] and the
    properties of its lifecycle operations: reconciliation of PID files at
    start-up ([_load_pids]), [start_service], [stop_service],
    [get_service_status], the composite [start_all] / [stop_all] /
    [restart_service], and port-conflict detection.

    Modelling choices.
    - The in-memory registry [self.services], the PID directory on disk and
      the trace of effects sent to the operating system form one record,
      [ServiceManager], threaded through every method by a state-and-exception
      monad [M]: a Python exception leaves the mutations made so far in
      place, exactly as [M] does.
    - What the operating system answers (psutil, subprocess, the clock) is
      not computed by the program.  Every method takes a record of answers,
      one field per call site; theorems quantify over all answers.
    - Characters are 8-bit; [str.lower], [str.strip] and [int] are modelled
      on the ASCII range.  Time stamps ([datetime]) are integers.  The
      logger is not modelled, nor are failures of the file system under the
      PID directory. *)

From Stdlib Require Import ZArith String Ascii List Bool Lia Floats.
From stdpp Require Import gmap strings pretty.
Import ListNotations.

Local Open Scope Z_scope.
Local Open Scope string_scope.

(** ** Python string primitives used by the supervisor *)

Module PyStr.

Definition code (c : ascii) : N := N_of_ascii c.

(** [str.isspace] on the ASCII range: TAB .. CR, FS .. US and the blank. *)
Definition isspace (c : ascii) : bool :=
  let n := code c in
  ((9 <=? n) && (n <=? 13) || (28 <=? n) && (n <=? 32))%N.

Definition isdigit (c : ascii) : bool :=
  let n := code c in ((48 <=? n) && (n <=? 57))%N.

Definition digit_value (c : ascii) : Z := Z.of_N (code c) - 48.

Definition lower_char (c : ascii) : ascii :=
  let n := code c in
  if ((65 <=? n) && (n <=? 90))%N then ascii_of_N (n + 32) else c.

(** [s.lower()] *)
Fixpoint lower (s : string) : string :=
  match s with
  | EmptyString => EmptyString
  | String c s' => String (lower_char c) (lower s')
  end.

Fixpoint lstrip (s : string) : string :=
  match s with
  | EmptyString => EmptyString
  | String c s' => if isspace c then lstrip s' else s
  end.

Fixpoint rstrip (s : string) : string :=
  match s with
  | EmptyString => EmptyString
  | String c s' =>
      match rstrip s' with
      | EmptyString => if isspace c then EmptyString else String c EmptyString
      | r => String c r
      end
  end.

(** [s.strip()] *)
Definition strip (s : string) : string := rstrip (lstrip s).

(** [s.replace(old, new)] for a one-character [old]. *)
Fixpoint replace (old : ascii) (new : string) (s : string) : string :=
  match s with
  | EmptyString => EmptyString
  | String c s' =>
      if Ascii.eqb c old then new ++ replace old new s'
      else String c (replace old new s')
  end.

Fixpoint startswith (p s : string) : bool :=
  match p, s with
  | EmptyString, _ => true
  | String a p', String b s' => Ascii.eqb a b && startswith p' s'
  | String _ _, EmptyString => false
  end.

(** [sub in s] *)
Fixpoint contains (sub s : string) : bool :=
  startswith sub s ||
  match s with
  | EmptyString => false
  | String _ s' => contains sub s'
  end.

(** [sep.join(parts)] *)
Fixpoint join (sep : string) (parts : list string) : string :=
  match parts with
  | [] => EmptyString
  | [p] => p
  | p :: rest => p ++ sep ++ join sep rest
  end.

(** [s.split()]: the maximal runs of non-blank characters.  [cur] is the
    word being read, reversed. *)
Fixpoint split_go (cur : list ascii) (s : string) : list string :=
  let flush := match cur with
               | [] => []
               | _ => [string_of_list_ascii (rev cur)]
               end in
  match s with
  | EmptyString => flush
  | String c s' =>
      if isspace c then flush ++ split_go [] s' else split_go (c :: cur) s'
  end.

Definition split (s : string) : list string := split_go [] s.

(** The digit groups of an integer literal: digits, with single
    underscores allowed between two digits.  [prev] tells whether the
    previous character was a digit. *)
Fixpoint digits (prev : bool) (acc : Z) (s : string) : option Z :=
  match s with
  | EmptyString => if prev then Some acc else None
  | String c s' =>
      if isdigit c then digits true (10 * acc + digit_value c) s'
      else if Ascii.eqb c "_" && prev then
        match s' with
        | String d _ => if isdigit d then digits false acc s' else None
        | EmptyString => None
        end
      else None
  end.

(** [int(s)] in base ten; [None] stands for [ValueError]. *)
Definition int (s : string) : option Z :=
  match strip s with
  | String "-" r => Z.opp <$> digits false 0 r
  | String "+" r => digits false 0 r
  | r => digits false 0 r
  end.

(** [str(n)] for an integer. *)
Definition str (n : Z) : string := pretty n.

End PyStr.

(** ** Data model *)

(** The five values the [status] field takes in the source. *)
Inductive Status := Stopped | Starting | Running | Stopping | Errored.

Definition status_str (s : Status) : string :=
  match s with
  | Stopped => "stopped"
  | Starting => "starting"
  | Running => "running"
  | Stopping => "stopping"
  | Errored => "error"
  end.

Global Instance Status_eq_dec : EqDecision Status.
Proof. solve_decision. Defined.

(** [@dataclass ServiceInfo] *)
Record ServiceInfo := mkServiceInfo {
  name : string;
  pid : option Z;
  status : Status;
  port : option Z;
  start_time : option Z;
  cpu_percent : float;
  memory_mb : float;
  command : string;
  log_file : string
}.

Definition set_pid (v : option Z) (s : ServiceInfo) : ServiceInfo :=
  mkServiceInfo (name s) v (status s) (port s) (start_time s)
                (cpu_percent s) (memory_mb s) (command s) (log_file s).
Definition set_status (v : Status) (s : ServiceInfo) : ServiceInfo :=
  mkServiceInfo (name s) (pid s) v (port s) (start_time s)
                (cpu_percent s) (memory_mb s) (command s) (log_file s).
Definition set_start_time (v : option Z) (s : ServiceInfo) : ServiceInfo :=
  mkServiceInfo (name s) (pid s) (status s) (port s) v
                (cpu_percent s) (memory_mb s) (command s) (log_file s).
Definition set_cpu_percent (v : float) (s : ServiceInfo) : ServiceInfo :=
  mkServiceInfo (name s) (pid s) (status s) (port s) (start_time s)
                v (memory_mb s) (command s) (log_file s).
Definition set_memory_mb (v : float) (s : ServiceInfo) : ServiceInfo :=
  mkServiceInfo (name s) (pid s) (status s) (port s) (start_time s)
                (cpu_percent s) v (command s) (log_file s).

(** Truth value of an [Optional[int]]: [None] and [0] are false. *)
Definition truthy (v : option Z) : bool :=
  match v with
  | Some n => negb (Z.eqb n 0)
  | None => false
  end.

(** Exceptions.  psutil's process queries raise [NoSuchProcess] or
    [AccessDenied]; [wait] may raise [TimeoutExpired]; anything else a call
    may throw is [OtherException]. *)
Inductive exn := NoSuchProcess | AccessDenied | TimeoutExpired | ValueError | OtherException.

Inductive Result (A : Type) := Ok (a : A) | Raise (e : exn).
Arguments Ok {A} a.
Arguments Raise {A} e.

(** What the supervisor does to the outside world, oldest first. *)
Inductive Event :=
| EvPopen (argv : list string) (background : bool) (child : Result positive)
| EvSleep (seconds : Z)
| EvKill (p : Z)
| EvTerminate (p : Z)
| EvSigterm (p : Z)
| EvWait (p : Z) (timeout : Z).

(** The manager: [self.system], [self.services] in insertion order, the
    files [<name>.pid] of [self.pids_dir] keyed by service name, and the
    effects performed so far. *)
Record ServiceManager := mkManager {
  system : string;
  services : list (string * ServiceInfo);
  pid_files : gmap string string;
  effects : list Event
}.

Definition with_services (f : list (string * ServiceInfo) -> list (string * ServiceInfo))
    (m : ServiceManager) : ServiceManager :=
  mkManager (system m) (f (services m)) (pid_files m) (effects m).
Definition with_pid_files (f : gmap string string -> gmap string string)
    (m : ServiceManager) : ServiceManager :=
  mkManager (system m) (services m) (f (pid_files m)) (effects m).
Definition emit (e : Event) (m : ServiceManager) : ServiceManager :=
  mkManager (system m) (services m) (pid_files m) (effects m ++ [e]).

(** [self.services.get(n)] *)
Fixpoint assoc (n : string) (l : list (string * ServiceInfo)) : option ServiceInfo :=
  match l with
  | [] => None
  | (k, v) :: l' => if String.eqb k n then Some v else assoc n l'
  end.

(** In-place mutation of the object stored under [n]. *)
Fixpoint modify (n : string) (f : ServiceInfo -> ServiceInfo)
    (l : list (string * ServiceInfo)) : list (string * ServiceInfo) :=
  match l with
  | [] => []
  | (k, v) :: l' => if String.eqb k n then (k, f v) :: l' else (k, v) :: modify n f l'
  end.

Definition service (n : string) (m : ServiceManager) : option ServiceInfo :=
  assoc n (services m).


(** ** The state-and-exception monad of the methods *)

Definition M (A : Type) : Type := ServiceManager -> Result A * ServiceManager.

Global Instance M_ret : MRet M := fun A a m => (Ok a, m).
Global Instance M_bind : MBind M := fun A B f c m =>
  match c m with
  | (Ok a, m') => f a m'
  | (Raise e, m') => (Raise e, m')
  end.

Definition raise {A} (e : exn) : M A := fun m => (Raise e, m).

(** [try: body  except ...: handler e]; a handler re-raises what it does
    not catch. *)
Definition try_except {A} (body : M A) (handler : exn -> M A) : M A := fun m =>
  match body m with
  | (Ok a, m') => (Ok a, m')
  | (Raise e, m') => handler e m'
  end.

Definition get : M ServiceManager := fun m => (Ok m, m).
Definition update (f : ServiceManager -> ServiceManager) : M unit := fun m => (Ok tt, f m).
Definition lift {A} (r : Result A) : M A := fun m => (r, m).

(** An effect sent to the operating system, with the answer it gets. *)
Definition call {A} (e : Event) (answer : Result A) : M A :=
  update (emit e);; lift answer.

(** [service.field = v] on the object [self.services[n]]. *)
Definition mutate (n : string) (f : ServiceInfo -> ServiceInfo) : M unit :=
  update (with_services (modify n f)).

(** [time.sleep(seconds)] *)
Definition sleep (seconds : Z) : M unit := update (emit (EvSleep seconds)).

(** ** The PID store *)

(** [_save_pid] *)
Definition _save_pid (service_name : string) (p : Z) : M unit :=
  update (with_pid_files (insert service_name (PyStr.str p))).

(** [_remove_pid]: unlink the file if it exists. *)
Definition _remove_pid (service_name : string) : M unit :=
  update (with_pid_files (delete service_name)).

(** ** Reconciliation at start-up *)

(** A [psutil.Process] handle as the reconciler uses it. *)
Record Process := mkProcess {
  cmdline : Result (list string);
  create_time : Result Z
}.

(** The operating system while one PID file is reconciled. *)
Record LoadOS := mkLoadOS {
  load_pid_exists : Z -> bool;
  load_Process : Z -> Result Process
}.

(** [_is_our_process] *)
Definition _is_our_process (process : Process) (service_name : string) : bool :=
  match cmdline process with
  | Ok argv =>
      PyStr.contains (PyStr.replace "_" "" service_name)
                     (PyStr.lower (PyStr.join " " argv))
  | Raise _ => false
  end.

(** The body of the loop of [_load_pids] for one service. *)
Definition load_pid (os : LoadOS) (service_name : string) : M unit :=
  m ← get;
  match pid_files m !! service_name with
  | None => mret tt
  | Some content =>
      try_except
        (p ← match PyStr.int (PyStr.strip content) with
             | Some p => mret p
             | None => raise ValueError
             end;
         if load_pid_exists os p then
           process ← lift (load_Process os p);
           if _is_our_process process service_name then
             mutate service_name (set_pid (Some p));;
             mutate service_name (set_status Running);;
             t ← lift (create_time process);
             mutate service_name (set_start_time (Some t))
           else _remove_pid service_name
         else _remove_pid service_name)
        (fun e =>
           match e with
           | ValueError | NoSuchProcess | AccessDenied => _remove_pid service_name
           | _ => raise e
           end)
  end.

(** [_load_pids]: every service of the registry, in insertion order.  [os n]
    is the operating system as seen while service [n] is reconciled. *)
Fixpoint load_each (os : string -> LoadOS) (names : list string) : M unit :=
  match names with
  | [] => mret tt
  | n :: rest => load_pid (os n) n;; load_each os rest
  end.

Definition _load_pids (os : string -> LoadOS) : M unit :=
  m ← get; load_each os (map fst (services m)).

(** [ServiceManager.__init__]: [sys_executable] is [sys.executable],
    [base_dir] the directory of the application, [platform_system] the
    value of [platform.system()], [disk] the PID directory as found. *)
Definition registry (sys_executable base_dir : string) : list (string * ServiceInfo) :=
  [ ("smtp_server",
     mkServiceInfo "smtp_server" None Stopped (Some 1025) None 0%float 0%float
       (sys_executable ++ " smtp_server.py") (base_dir ++ "/logs/smtp_server.log"));
    ("web_interface",
     mkServiceInfo "web_interface" None Stopped (Some 5000) None 0%float 0%float
       (sys_executable ++ " web_interface.py") (base_dir ++ "/logs/web_interface.log")) ].

Definition init (sys_executable base_dir platform_system : string)
    (disk : gmap string string) (os : string -> LoadOS) : Result unit * ServiceManager :=
  _load_pids os
    (mkManager (PyStr.lower platform_system) (registry sys_executable base_dir) disk []).

(** ** Launcher *)

(** The operating system during one [start_service]: the liveness check of
    the tracked PID before anything is done, opening the log file,
    [subprocess.Popen] (a child always has a positive PID),
    [datetime.now()], and the liveness check when the two seconds of grace
    have passed. *)
Record StartOS := mkStartOS {
  start_pid_exists : Z -> bool;
  start_open_log : Result unit;
  start_Popen : Result positive;
  start_now : Z;
  grace_pid_exists : Z -> bool
}.

(** [_update_service_stats] and [get_service_status] *)
Record StatusOS := mkStatusOS {
  status_pid_exists : Z -> bool;
  stats_pid_exists : Z -> bool;
  stats_Process : Z -> Result unit;
  stats_cpu_percent : Result float;
  stats_rss : Result Z
}.

(** The operating system during one [stop_service]. *)
Record StopOS := mkStopOS {
  stop_pid_exists : Z -> bool;
  stop_Process : Z -> Result unit;
  stop_kill : Z -> Result unit;
  stop_terminate : Z -> Result unit;
  stop_send_signal : Z -> Result unit;
  stop_wait : Z -> Result unit
}.

(** [service.status == 'running' and service.pid and psutil.pid_exists(service.pid)] *)
Definition running_and_alive (pid_exists : Z -> bool) (s : ServiceInfo) : bool :=
  bool_decide (status s = Running) && truthy (pid s) &&
  match pid s with
  | Some p => pid_exists p
  | None => false
  end.

(** [start_service] *)
Definition start_service (os : StartOS) (service_name : string) (background : bool) : M bool :=
  m ← get;
  match service service_name m with
  | None => mret false
  | Some svc =>
      if running_and_alive (start_pid_exists os) svc then mret true
      else
        mutate service_name (set_status Starting);;
        try_except
          (let argv := PyStr.split (command svc) in
           child ← (if background
                    then lift (start_open_log os);;
                         call (EvPopen argv true (start_Popen os)) (start_Popen os)
                    else call (EvPopen argv false (start_Popen os)) (start_Popen os));
           let p := Z.pos child in
           mutate service_name (set_pid (Some p));;
           mutate service_name (set_start_time (Some (start_now os)));;
           mutate service_name (set_status Running);;
           _save_pid service_name p;;
           sleep 2;;
           if negb (grace_pid_exists os p) then
             mutate service_name (set_status Errored);;
             mret false
           else mret true)
          (fun _ =>
             mutate service_name (set_status Errored);;
             mret false)
  end.

(** ** Terminator *)

(** [stop_service] *)
Definition stop_service (os : StopOS) (service_name : string) (force : bool) : M bool :=
  m ← get;
  match service service_name m with
  | None => mret false
  | Some svc =>
      if bool_decide (status svc = Stopped) || negb (truthy (pid svc)) then mret true
      else
        let p := default 0 (pid svc) in
        mutate service_name (set_status Stopping);;
        try_except
          (if negb (stop_pid_exists os p) then
             mutate service_name (set_status Stopped);;
             mutate service_name (set_pid None);;
             _remove_pid service_name;;
             mret true
           else
             lift (stop_Process os p);;
             (if force then call (EvKill p) (stop_kill os p)
              else
                (if String.eqb (system m) "windows"
                 then call (EvTerminate p) (stop_terminate os p)
                 else call (EvSigterm p) (stop_send_signal os p));;
                try_except
                  (call (EvWait p 10) (stop_wait os p))
                  (fun e =>
                     match e with
                     | TimeoutExpired => call (EvKill p) (stop_kill os p)
                     | _ => raise e
                     end));;
             mutate service_name (set_status Stopped);;
             mutate service_name (set_pid None);;
             mutate service_name (set_start_time None);;
             mutate service_name (set_cpu_percent 0%float);;
             mutate service_name (set_memory_mb 0%float);;
             _remove_pid service_name;;
             mret true)
          (fun e =>
             match e with
             | NoSuchProcess | AccessDenied =>
                 mutate service_name (set_status Stopped);;
                 mutate service_name (set_pid None);;
                 _remove_pid service_name;;
                 mret true
             | _ => mret false
             end)
  end.


(** ** Status reporter *)

(** [rss / 1024 / 1024] *)
Definition mb_of_rss (rss : Z) : float :=
  (PrimFloat.of_uint63 (Uint63.of_Z rss) / 1024 / 1024)%float.

(** [_update_service_stats] *)
Definition _update_service_stats (os : StatusOS) (service_name : string) : M unit :=
  m ← get;
  match service service_name m with
  | None => raise OtherException
  | Some svc =>
      if truthy (pid svc) && stats_pid_exists os (default 0 (pid svc)) then
        try_except
          (lift (stats_Process os (default 0 (pid svc)));;
           cpu ← lift (stats_cpu_percent os);
           mutate service_name (set_cpu_percent cpu);;
           rss ← lift (stats_rss os);
           mutate service_name (set_memory_mb (mb_of_rss rss)))
          (fun e =>
             match e with
             | NoSuchProcess | AccessDenied =>
                 mutate service_name (set_cpu_percent 0%float);;
                 mutate service_name (set_memory_mb 0%float)
             | _ => raise e
             end)
      else mret tt
  end.

(** [get_service_status]: the object returned is the one stored in the
    registry, read after the refresh. *)
Definition get_service_status (os : StatusOS) (service_name : string) : M (option ServiceInfo) :=
  m ← get;
  match service service_name m with
  | None => mret None
  | Some svc =>
      (if bool_decide (status svc = Running) && truthy (pid svc) then
         if negb (status_pid_exists os (default 0 (pid svc))) then
           mutate service_name (set_status Stopped);;
           mutate service_name (set_pid None);;
           mutate service_name (set_start_time None);;
           _remove_pid service_name
         else _update_service_stats os service_name
       else mret tt);;
      m' ← get;
      mret (service service_name m')
  end.

(** ** Composite operations *)

(** [start_all] *)
Definition start_all (os_smtp os_web : StartOS) : M bool :=
  let success := true in
  ok ← start_service os_smtp "smtp_server" true;
  let success := if negb ok then false else success in
  sleep 3;;
  ok ← start_service os_web "web_interface" true;
  let success := if negb ok then false else success in
  mret success.

(** [stop_all] *)
Definition stop_all (os_web os_smtp : StopOS) (force : bool) : M bool :=
  let success := true in
  ok ← stop_service os_web "web_interface" force;
  let success := if negb ok then false else success in
  ok ← stop_service os_smtp "smtp_server" force;
  let success := if negb ok then false else success in
  mret success.

(** ** Port conflicts *)

Inductive ConnStatus := CONN_LISTEN | CONN_ESTABLISHED | CONN_OTHER.

Global Instance ConnStatus_eq_dec : EqDecision ConnStatus.
Proof. solve_decision. Defined.

(** One entry of [psutil.net_connections()]: [laddr.port] and [status].
    Every entry carries a local address, as the source takes for granted. *)
Record Conn := mkConn {
  laddr_port : Z;
  conn_status : ConnStatus
}.

(** [is_port_in_use], over the table [psutil.net_connections()] returned. *)
Fixpoint is_port_in_use (net_connections : list Conn) (p : Z) : bool :=
  match net_connections with
  | [] => false
  | conn :: rest =>
      if Z.eqb (laddr_port conn) p && bool_decide (conn_status conn = CONN_LISTEN)
      then true
      else is_port_in_use rest p
  end.

(** The loop of [get_port_conflicts] over [self.services.items()].  [net n]
    is the socket table returned to the query made for service [n]. *)
Fixpoint port_conflicts (net : string -> list Conn)
    (items : list (string * ServiceInfo)) : list (string * Z) :=
  match items with
  | [] => []
  | (service_name, svc) :: rest =>
      let here :=
        if truthy (port svc) && is_port_in_use (net service_name) (default 0 (port svc)) then
          if negb (bool_decide (status svc = Running))
          then [(service_name, default 0 (port svc))]
          else []
        else [] in
      here ++ port_conflicts net rest
  end.

Definition get_port_conflicts (net : string -> list Conn) : M (list (string * Z)) :=
  m ← get; mret (port_conflicts net (services m)).

(** * Vocabulary of the properties *)

Local Open Scope list_scope.

(** The names in the registry, in insertion order. *)
Definition keys (m : ServiceManager) : list string := map fst (services m).

(** A predicate on every service of the registry. *)
Definition every_service (P : string -> ServiceInfo -> bool) (m : ServiceManager) : bool :=
  forallb (fun n => match service n m with
                    | Some svc => P n svc
                    | None => true
                    end) (keys m).

(** A string without the blank character. *)
Fixpoint no_blank (s : string) : bool :=
  match s with
  | EmptyString => true
  | String c s' => negb (Ascii.eqb c " ") && no_blank s'
  end.

(** The children [Popen] created, oldest first. *)
Definition spawned (evs : list Event) : list positive :=
  flat_map (fun e => match e with EvPopen _ _ (Ok child) => [child] | _ => [] end) evs.

(** The invariant of the data model: a PID is present exactly when the
    status is [starting], [running] or [stopping]. *)
Definition pid_invariant (svc : ServiceInfo) : bool :=
  match status svc with
  | Starting | Running | Stopping => bool_decide (pid svc <> None)
  | Stopped | Errored => bool_decide (pid svc = None)
  end.

Definition invariant (m : ServiceManager) : bool :=
  every_service (fun _ svc => pid_invariant svc) m.

(** A service is well tracked when a [stopped] status comes with no PID, a
    [running] or [stopping] status with a PID that is not zero, and a
    service without such a PID has no PID file. *)
Definition well_tracked (svc : ServiceInfo) (record : option string) : bool :=
  match status svc with
  | Stopped => bool_decide (pid svc = None)
  | Running | Stopping => truthy (pid svc)
  | Starting | Errored => true
  end &&
  (truthy (pid svc) || bool_decide (record = None)).

Definition coherent (m : ServiceManager) : bool :=
  every_service (fun n svc => well_tracked svc (pid_files m !! n)) m.



(** PID 0, if the system reports it at all, is not recognised as service
    [n]: no service process has PID 0. *)
Definition pid_zero_is_foreign (os : LoadOS) (n : string) : Prop :=
  load_pid_exists os 0 = true ->
  forall process, load_Process os 0 = Ok process -> _is_our_process process n = false.


(** * A supervisor session

    One run of the supervisor on a POSIX host, used to evaluate the methods:
    the interpreter is [/usr/bin/python3], the application lives in
    [/srv/app], the PID directory starts empty. *)

Definition python : string := "/usr/bin/python3".

Definition no_process : LoadOS :=
  mkLoadOS (fun _ => false) (fun _ => Raise NoSuchProcess).

(** The manager as [__init__] builds it on an empty PID directory. *)
Definition fresh : ServiceManager :=
  snd (init python "/srv/app" "Linux" ∅ (fun _ => no_process)).

(** [Popen] creates process 4242, which is alive after the grace period. *)
Definition healthy_start : StartOS :=
  mkStartOS (fun _ => false) (Ok tt) (Ok 4242%positive) 1700000000 (fun p => Z.eqb p 4242).

Definition started : ServiceManager :=
  snd (start_service healthy_start "smtp_server" true fresh).

(** A status query while 4242 runs: 12.5 % CPU, 32 MiB resident. *)
Definition sampled : StatusOS :=
  mkStatusOS (fun p => Z.eqb p 4242) (fun p => Z.eqb p 4242) (fun _ => Ok tt)
             (Ok 12.5%float) (Ok 33554432).

Definition observed : ServiceManager :=
  snd (get_service_status sampled "smtp_server" started).

(** [Popen] creates process 4242, which has exited when the grace period
    ends. *)
Definition crashing_start : StartOS :=
  mkStartOS (fun _ => false) (Ok tt) (Ok 4242%positive) 1700000000 (fun _ => false).

(** Process 4242 exists, and signalling it is refused. *)
Definition denied_stop : StopOS :=
  mkStopOS (fun p => Z.eqb p 4242) (fun _ => Ok tt) (fun _ => Ok tt) (fun _ => Ok tt)
           (fun _ => Raise AccessDenied) (fun _ => Ok tt).

(** Process 4242 passes the existence check and is gone when the handle is
    requested. *)
Definition racing_stop : StopOS :=
  mkStopOS (fun p => Z.eqb p 4242) (fun _ => Raise NoSuchProcess) (fun _ => Ok tt)
           (fun _ => Ok tt) (fun _ => Ok tt) (fun _ => Ok tt).

(** No process exists any more. *)
Definition dead_stop : StopOS :=
  mkStopOS (fun _ => false) (fun _ => Raise NoSuchProcess) (fun _ => Raise NoSuchProcess)
           (fun _ => Raise NoSuchProcess) (fun _ => Raise NoSuchProcess)
           (fun _ => Raise NoSuchProcess).

Definition vanished : StatusOS :=
  mkStatusOS (fun _ => false) (fun _ => false) (fun _ => Raise NoSuchProcess)
             (Raise NoSuchProcess) (Raise NoSuchProcess).

(** The supervisor is started again while process 4242, launched by
    [started] with the argument vector below, is still running. *)
Definition own_process : Process :=
  mkProcess (Ok [python; "smtp_server.py"]) (Ok 1700000000).

Definition still_running : LoadOS :=
  mkLoadOS (fun p => Z.eqb p 4242) (fun _ => Ok own_process).

Definition restarted : Result unit * ServiceManager :=
  init python "/srv/app" "Linux" (pid_files started) (fun _ => still_running).

(** A later [start_service] on the same host: 4242 is alive; were [Popen]
    called it would create process 5000. *)
Definition second_start : StartOS :=
  mkStartOS (fun p => Z.eqb p 4242) (Ok tt) (Ok 5000%positive) 1700000100 (fun _ => true).

(** The fields of a service that the lifecycle methods reset. *)
Definition runtime (svc : ServiceInfo) : Status * option Z * option Z * float * float :=
  (status svc, pid svc, start_time svc, cpu_percent svc, memory_mb svc).

(** * The remaining methods of the supervisor *)

(** [restart_all]: [stop_all()] with its default [force=False]. *)
Definition restart_all (stop_web stop_smtp : StopOS) (start_smtp start_web : StartOS) : M bool :=
  stopped ← stop_all stop_web stop_smtp false;
  if negb stopped then mret false
  else sleep 3;; start_all start_smtp start_web.

(** [d[k] = v] on a dictionary kept in insertion order. *)
Fixpoint dict_set {V : Type} (k : string) (v : V) (d : list (string * V)) : list (string * V) :=
  match d with
  | [] => [(k, v)]
  | (k', v') :: d' => if String.eqb k' k then (k', v) :: d' else (k', v') :: dict_set k v d'
  end.

(** The loop of [get_all_status]; [os n] answers the query for service [n]. *)
Fixpoint all_status_loop (os : string -> StatusOS) (names : list string)
    (status : list (string * option ServiceInfo)) : M (list (string * option ServiceInfo)) :=
  match names with
  | [] => mret status
  | service_name :: rest =>
      s ← get_service_status (os service_name) service_name;
      all_status_loop os rest (dict_set service_name s status)
  end.

(** [get_all_status] *)
Definition get_all_status (os : string -> StatusOS) : M (list (string * option ServiceInfo)) :=
  m ← get; all_status_loop os (map fst (services m)) [].


(** The operating system during one round of the monitor. *)
Record MonitorOS := mkMonitorOS {
  monitor_status : string -> StatusOS;
  monitor_start : string -> StartOS
}.




(** * Vocabulary of the further properties *)

(** A string of decimal digits. *)
Fixpoint all_digits (s : string) : bool :=
  match s with
  | EmptyString => true
  | String c s' => PyStr.isdigit c && all_digits s'
  end.

(** The number a string of digits denotes, continuing from [acc]. *)
Fixpoint digits_value (acc : Z) (s : string) : Z :=
  match s with
  | EmptyString => acc
  | String c s' => digits_value (10 * acc + PyStr.digit_value c) s'
  end.

(** A string without white space. *)
Fixpoint no_space (s : string) : bool :=
  match s with
  | EmptyString => true
  | String c s' => negb (PyStr.isspace c) && no_space s'
  end.

(** The two exceptions psutil documents for process queries. *)
Definition psutil_error (e : exn) : bool :=
  match e with
  | NoSuchProcess | AccessDenied => true
  | _ => false
  end.



(** The events that signal or create a process. *)
Definition is_sleep (e : Event) : bool :=
  match e with
  | EvSleep _ => true
  | _ => false
  end.

(** The graceful signal of the platform. *)
Definition graceful_signal (m : ServiceManager) (p : Z) : Event :=
  if String.eqb (system m) "windows" then EvTerminate p else EvSigterm p.

Definition graceful_answer (os : StopOS) (m : ServiceManager) (p : Z) : Result unit :=
  if String.eqb (system m) "windows" then stop_terminate os p else stop_send_signal os p.

(** A Windows host on which [smtp_server] runs as process 4242. *)
Definition on_windows : ServiceManager :=
  snd (start_service healthy_start "smtp_server" true
         (snd (init python "/srv/app" "Windows" ∅ (fun _ => no_process)))).

(** Process 4242 ignores the graceful signal and is killed after the wait. *)
Definition stubborn_stop : StopOS :=
  mkStopOS (fun p => Z.eqb p 4242) (fun _ => Ok tt) (fun _ => Ok tt) (fun _ => Ok tt)
           (fun _ => Ok tt) (fun _ => Raise TimeoutExpired).

(** Signalling fails with an exception psutil does not document. *)
Definition failing_stop : StopOS :=
  mkStopOS (fun p => Z.eqb p 4242) (fun _ => Ok tt) (fun _ => Raise OtherException)
           (fun _ => Raise OtherException) (fun _ => Raise OtherException) (fun _ => Ok tt).

(** The web front end is launched as process 4343. *)
Definition web_start : StartOS :=
  mkStartOS (fun _ => false) (Ok tt) (Ok 4343%positive) 1700000005 (fun p => Z.eqb p 4343).

(** A round of the monitor during which both services are sampled. *)
Definition quiet_round : MonitorOS :=
  mkMonitorOS (fun _ => sampled) (fun _ => crashing_start).

(** A host where the application is installed under [/opt/smtpserver], so
    that the command line of process 4242 carries the fingerprint. *)
Definition recognised_process : Process :=
  mkProcess (Ok ["/opt/smtpserver/venv/bin/python"; "smtp_server.py"]) (Ok 1699999990).

Definition recognised : LoadOS :=
  mkLoadOS (fun p => Z.eqb p 4242) (fun _ => Ok recognised_process).

(** * Properties *)

(** ** The registry under mutation *)

Lemma assoc_modify_eq n f l : assoc n (modify n f l) = f <$> assoc n l.
Proof.
  induction l as [|[k v] l IH]; simpl; [reflexivity|].
  destruct (String.eqb k n) eqn:E; simpl; rewrite E; [reflexivity|exact IH].
Qed.

Lemma assoc_modify_ne n n' f l : n <> n' -> assoc n' (modify n f l) = assoc n' l.
Proof.
  intros Hne. induction l as [|[k v] l IH]; simpl; [reflexivity|].
  destruct (String.eqb k n) eqn:E; simpl.
  - apply String.eqb_eq in E. subst k.
    apply String.eqb_neq in Hne. rewrite Hne. reflexivity.
  - rewrite IH. reflexivity.
Qed.

Lemma map_fst_modify n f l : map fst (modify n f l) = map fst l.
Proof.
  induction l as [|[k v] l IH]; simpl; [reflexivity|].
  destruct (String.eqb k n); simpl; [reflexivity|]. now rewrite IH.
Qed.

Lemma assoc_In n l v : assoc n l = Some v -> In (n, v) l.
Proof.
  induction l as [|[k w] l IH]; simpl; [discriminate|].
  destruct (String.eqb k n) eqn:E.
  - apply String.eqb_eq in E. intros [= ->]. subst. now left.
  - intros H. right. now apply IH.
Qed.

Lemma assoc_None_keys n l : assoc n l = None <-> ~ In n (map fst l).
Proof.
  induction l as [|[k w] l IH]; simpl; [tauto|].
  destruct (String.eqb k n) eqn:E.
  - apply String.eqb_eq in E. split; [discriminate|]. intros H. exfalso. apply H. now left.
  - apply String.eqb_neq in E. rewrite IH. tauto.
Qed.

Lemma service_mutate n f m :
  service n (with_services (modify n f) m) = f <$> service n m.
Proof. apply assoc_modify_eq. Qed.

Lemma service_mutate_ne n n' f m :
  n <> n' -> service n' (with_services (modify n f) m) = service n' m.
Proof. apply assoc_modify_ne. Qed.

Lemma service_with_pid_files n g m : service n (with_pid_files g m) = service n m.
Proof. reflexivity. Qed.

Lemma service_emit n e m : service n (emit e m) = service n m.
Proof. reflexivity. Qed.

Lemma keys_mutate n f m : keys (with_services (modify n f) m) = keys m.
Proof. apply map_fst_modify. Qed.

Create Rewrite HintDb registry.
#[global] Hint Rewrite service_mutate service_with_pid_files service_emit keys_mutate : registry.

(** Unfolding of the monadic plumbing, leaving the methods' own structure. *)
Ltac run :=
  unfold call, mutate, sleep, _save_pid, _remove_pid;
  unfold mbind, mret, M_bind, M_ret, get, update, lift, raise, try_except;
  cbn beta iota.

Ltac run_in H :=
  unfold call, mutate, sleep, _save_pid, _remove_pid in H;
  unfold mbind, mret, M_bind, M_ret, get, update, lift, raise, try_except in H;
  cbn beta iota in H.

(** ** Unknown services *)

(** C10.  A name that is not in the registry (whose keys are [smtp_server]
    and [web_interface]) makes [start_service] and [stop_service] return
    [False] and [get_service_status] return [None]; none of them raises and
    none changes the registry, the PID files or the effects. *)
Theorem unknown_service_rejected
    (os_start : StartOS) (os_stop : StopOS) (os_status : StatusOS)
    (service_name : string) (background force : bool) (m : ServiceManager) :
  keys m = ["smtp_server"; "web_interface"] ->
  service_name <> "smtp_server" ->
  service_name <> "web_interface" ->
  start_service os_start service_name background m = (Ok false, m) /\
  stop_service os_stop service_name force m = (Ok false, m) /\
  get_service_status os_status service_name m = (Ok None, m).
Proof.
  intros Hk H1 H2.
  assert (Hnone : service service_name m = None).
  { apply assoc_None_keys. fold (keys m). rewrite Hk. simpl. intuition congruence. }
  unfold start_service, stop_service, get_service_status. run.
  rewrite Hnone. repeat split.
Qed.

(** ** The launcher and the terminator always return *)

Lemma start_service_returns os n bg m :
  exists b m' evs,
    start_service os n bg m = (Ok b, m') /\ effects m' = effects m ++ evs.
Proof.
  unfold start_service. run.
  destruct (service n m) as [svc|]; [|exists false, m, []; now rewrite app_nil_r].
  destruct (running_and_alive _ svc); [exists true, m, []; now rewrite app_nil_r|].
  destruct bg; destruct (start_open_log os) as [[]|]; destruct (start_Popen os) as [c|];
    try destruct (grace_pid_exists os (Z.pos c)); cbn;
    eexists _, _, _; (split; [reflexivity|]); cbn;
    rewrite <- ?app_assoc; try reflexivity; now rewrite app_nil_r.
Qed.

Lemma stop_service_returns os n force m :
  exists b m' evs,
    stop_service os n force m = (Ok b, m') /\ effects m' = effects m ++ evs.
Proof.
  unfold stop_service. run.
  destruct (service n m) as [svc|]; [|exists false, m, []; now rewrite app_nil_r].
  destruct (_ || _); [exists true, m, []; now rewrite app_nil_r|].
  destruct (stop_pid_exists os _); cbn;
    [|eexists _, _, []; split; [reflexivity|now rewrite app_nil_r]].
  destruct (stop_Process os _) as [[]|[]]; cbn;
    try (eexists _, _, []; split; [reflexivity|now rewrite app_nil_r]).
  destruct force; [|destruct (String.eqb (system m) "windows")]; cbn.
  - destruct (stop_kill os _) as [[]|[]]; cbn;
      eexists _, _, _; (split; [reflexivity|reflexivity]).
  - destruct (stop_terminate os _) as [[]|[]]; cbn;
      try (eexists _, _, _; (split; reflexivity));
      destruct (stop_wait os _) as [[]|[]]; cbn;
      try (eexists _, _, _; split; [reflexivity|cbn; rewrite <- ?app_assoc; reflexivity]);
      destruct (stop_kill os _) as [[]|[]]; cbn;
      eexists _, _, _; (split; [reflexivity|cbn; rewrite <- ?app_assoc; reflexivity]).
  - destruct (stop_send_signal os _) as [[]|[]]; cbn;
      try (eexists _, _, _; (split; reflexivity));
      destruct (stop_wait os _) as [[]|[]]; cbn;
      try (eexists _, _, _; split; [reflexivity|cbn; rewrite <- ?app_assoc; reflexivity]);
      destruct (stop_kill os _) as [[]|[]]; cbn;
      eexists _, _, _; (split; [reflexivity|cbn; rewrite <- ?app_assoc; reflexivity]).
Qed.

(** ** Composite operations *)

Lemma start_all_run os_smtp os_web m :
  exists r1 m1 r2 m2 ev1 ev2,
    start_service os_smtp "smtp_server" true m = (Ok r1, m1) /\
    effects m1 = effects m ++ ev1 /\
    start_service os_web "web_interface" true (emit (EvSleep 3) m1) = (Ok r2, m2) /\
    effects m2 = effects m ++ ev1 ++ [EvSleep 3] ++ ev2 /\
    start_all os_smtp os_web m = (Ok (r1 && r2), m2).
Proof.
  destruct (start_service_returns os_smtp "smtp_server" true m)
    as (r1 & m1 & ev1 & E1 & F1).
  destruct (start_service_returns os_web "web_interface" true (emit (EvSleep 3) m1))
    as (r2 & m2 & ev2 & E2 & F2).
  exists r1, m1, r2, m2, ev1, ev2. repeat split; try assumption.
  - rewrite F2. cbn. rewrite F1. now rewrite <- !app_assoc.
  - unfold start_all. unfold mbind at 1, M_bind at 1. rewrite E1.
    unfold sleep, update. unfold mbind at 1, M_bind at 1.
    unfold mbind at 1, M_bind at 1. rewrite E2.
    unfold mret, M_ret. now destruct r1, r2.
Qed.

Lemma stop_all_run os_web os_smtp force m :
  exists r1 m1 r2 m2,
    stop_service os_web "web_interface" force m = (Ok r1, m1) /\
    stop_service os_smtp "smtp_server" force m1 = (Ok r2, m2) /\
    stop_all os_web os_smtp force m = (Ok (r1 && r2), m2).
Proof.
  destruct (stop_service_returns os_web "web_interface" force m)
    as (r1 & m1 & ev1 & E1 & F1).
  destruct (stop_service_returns os_smtp "smtp_server" force m1)
    as (r2 & m2 & ev2 & E2 & F2).
  exists r1, m1, r2, m2. repeat split; try assumption.
  unfold stop_all. unfold mbind at 1, M_bind at 1. rewrite E1.
  unfold mbind at 1, M_bind at 1. rewrite E2.
  unfold mret, M_ret. now destruct r1, r2.
Qed.

(** C7.  [start_all] starts [smtp_server] first, sleeps three seconds, then
    starts [web_interface], whatever the first start returned; [stop_all]
    stops [web_interface] first and then [smtp_server], whatever the first
    stop returned.  Both return the conjunction of the two results.  The
    effects of [start_all] are those of the first start, the settle delay,
    then those of the second start. *)
Theorem start_all_stop_all_order
    (os_smtp os_web : StartOS) (stop_web stop_smtp : StopOS) (force : bool)
    (m : ServiceManager) :
  (exists r1 m1 r2 m2 ev1 ev2,
      start_service os_smtp "smtp_server" true m = (Ok r1, m1) /\
      effects m1 = effects m ++ ev1 /\
      start_service os_web "web_interface" true (emit (EvSleep 3) m1) = (Ok r2, m2) /\
      effects m2 = effects m ++ ev1 ++ [EvSleep 3] ++ ev2 /\
      start_all os_smtp os_web m = (Ok (r1 && r2), m2)) /\
  (exists r1 m1 r2 m2,
      stop_service stop_web "web_interface" force m = (Ok r1, m1) /\
      stop_service stop_smtp "smtp_server" force m1 = (Ok r2, m2) /\
      stop_all stop_web stop_smtp force m = (Ok (r1 && r2), m2)).
Proof. split; [apply start_all_run|apply stop_all_run]. Qed.

(** ** Port conflicts *)

Lemma is_port_in_use_spec conns p :
  is_port_in_use conns p = true <->
  exists conn, In conn conns /\ laddr_port conn = p /\ conn_status conn = CONN_LISTEN.
Proof.
  induction conns as [|c conns IH]; simpl.
  - split; [discriminate|]. intros (? & [] & _).
  - destruct (Z.eqb (laddr_port c) p) eqn:Ep; simpl.
    + apply Z.eqb_eq in Ep. destruct (bool_decide (conn_status c = CONN_LISTEN)) eqn:Es.
      * apply bool_decide_eq_true in Es. split; [|reflexivity]. intros _. exists c. auto.
      * apply bool_decide_eq_false in Es. rewrite IH. split.
        -- intros (c' & Hin & H1 & H2). exists c'. auto.
        -- intros (c' & [->|Hin] & H1 & H2); [contradiction|]. exists c'. auto.
    + apply Z.eqb_neq in Ep. rewrite IH. split.
      * intros (c' & Hin & H1 & H2). exists c'. auto.
      * intros (c' & [->|Hin] & H1 & H2); [contradiction|]. exists c'. auto.
Qed.

Lemma port_conflicts_spec net items n p :
  In (n, p) (port_conflicts net items) <->
  exists svc, In (n, svc) items /\ port svc = Some p /\ p <> 0 /\
              status svc <> Running /\ is_port_in_use (net n) p = true.
Proof.
  induction items as [|[k v] items IH]; simpl.
  - split; [intros []|]. intros (? & [] & _).
  - rewrite in_app_iff, IH. clear IH. split.
    + intros [Hhere|(svc & Hin & Hrest)]; [|exists svc; auto].
      destruct (port v) as [q|] eqn:Eq; simpl in Hhere; [|destruct Hhere].
      destruct (Z.eqb q 0) eqn:Ez; simpl in Hhere; [destruct Hhere|].
      destruct (is_port_in_use (net k) q) eqn:Eu; simpl in Hhere; [|destruct Hhere].
      destruct (bool_decide (status v = Running)) eqn:Er; simpl in Hhere; [destruct Hhere|].
      destruct Hhere as [[= -> ->]|[]].
      apply Z.eqb_neq in Ez. apply bool_decide_eq_false in Er.
      exists v. auto 6.
    + intros (svc & [[= -> ->]|Hin] & Hp & Hz & Hr & Hu); [left|right; exists svc; auto].
      rewrite Hp. simpl. apply Z.eqb_neq in Hz. rewrite Hz, Hu. simpl.
      apply (bool_decide_eq_false_2 _) in Hr. rewrite Hr. simpl. now left.
Qed.

(** C8.  [get_port_conflicts] reports [(name, port)] exactly when the
    registry holds a service [name] with that configured port, the socket
    table returned for it has an entry in state LISTEN on the port, and the
    service's status is not [running]; a service whose status is [running]
    is never reported.  The call reads the state and changes nothing. *)
Theorem port_conflict_reported
    (net : string -> list Conn) (m : ServiceManager) (service_name : string) (p : Z) :
  exists conflicts,
    get_port_conflicts net m = (Ok conflicts, m) /\
    (In (service_name, p) conflicts <->
     exists svc,
       In (service_name, svc) (services m) /\ port svc = Some p /\ p <> 0 /\
       status svc <> Running /\
       exists conn, In conn (net service_name) /\ laddr_port conn = p /\
                    conn_status conn = CONN_LISTEN).
Proof.
  exists (port_conflicts net (services m)). split; [reflexivity|].
  rewrite port_conflicts_spec. split.
  - intros (svc & H1 & H2 & H3 & H4 & H5). exists svc.
    apply is_port_in_use_spec in H5. auto 6.
  - intros (svc & H1 & H2 & H3 & H4 & H5). exists svc.
    apply is_port_in_use_spec in H5. auto 6.
Qed.

(** ** Idempotence of start *)

Lemma running_and_alive_true pid_exists svc :
  running_and_alive pid_exists svc = true <->
  status svc = Running /\ exists p, pid svc = Some p /\ p <> 0 /\ pid_exists p = true.
Proof.
  unfold running_and_alive, truthy. destruct (pid svc) as [p|].
  - rewrite !andb_true_iff, bool_decide_eq_true, negb_true_iff, Z.eqb_neq. split.
    + intros [[H1 H2] H3]. split; [assumption|]. exists p. auto.
    + intros (H1 & q & [= <-] & H2 & H3). auto.
  - rewrite andb_false_r. split; [discriminate|]. intros (_ & q & [=] & _).
Qed.

(** C6.  When the service is [running] with a tracked PID that the system
    reports alive, [start_service] returns [True] and leaves the manager
    as it was: no [Popen], no PID file written, no field changed.  Two
    calls in a row therefore both return [True] and the tracked process
    remains the only one. *)
Theorem start_service_idempotent
    (os os' : StartOS) (service_name : string) (background background' : bool)
    (m : ServiceManager) (svc : ServiceInfo) (p : Z) :
  service service_name m = Some svc ->
  status svc = Running ->
  pid svc = Some p ->
  p <> 0 ->
  start_pid_exists os p = true ->
  start_pid_exists os' p = true ->
  start_service os service_name background m = (Ok true, m) /\
  (start_service os service_name background;;
   start_service os' service_name background') m = (Ok true, m).
Proof.
  intros Hs Hst Hp Hnz Ha Ha'.
  assert (R : forall o b, start_pid_exists o p = true ->
                          start_service o service_name b m = (Ok true, m)).
  { intros o b Ho. unfold start_service. run. rewrite Hs.
    assert (E : running_and_alive (start_pid_exists o) svc = true).
    { apply running_and_alive_true. split; [assumption|]. exists p. auto. }
    now rewrite E. }
  split; [now apply R|].
  unfold mbind at 1, M_bind at 1. rewrite (R os background Ha). now apply R.
Qed.

(** ** Coherence of the registry with the PID store *)

Lemma coherent_spec m :
  coherent m = true <->
  forall n svc, service n m = Some svc -> well_tracked svc (pid_files m !! n) = true.
Proof.
  unfold coherent, every_service. rewrite forallb_forall. split.
  - intros H n svc Hs. specialize (H n). rewrite Hs in H. apply H.
    apply assoc_In in Hs. apply (in_map fst) in Hs. exact Hs.
  - intros H n _. destruct (service n m) eqn:E; [now apply H|reflexivity].
Qed.

Lemma well_tracked_stopped svc record :
  well_tracked svc record = true -> status svc = Stopped -> pid svc = None /\ record = None.
Proof.
  unfold well_tracked. intros H E. rewrite E in H. apply andb_true_iff in H as [H1 H2].
  apply bool_decide_eq_true in H1. rewrite H1 in *. simpl in H2.
  apply bool_decide_eq_true in H2. auto.
Qed.

Lemma well_tracked_untracked svc record :
  well_tracked svc record = true -> truthy (pid svc) = false -> record = None.
Proof.
  unfold well_tracked. intros H E. rewrite E in H. apply andb_true_iff in H as [_ H].
  now apply bool_decide_eq_true in H.
Qed.

(** Looking up a service other than the one a method works on. *)
Ltac other_service :=
  repeat first [ rewrite service_emit | rewrite service_with_pid_files
               | rewrite service_mutate_ne by congruence ].

(** Case analysis on every answer the method asked for. *)
Ltac paths H :=
  repeat match type of H with
         | context [match ?x with _ => _ end] =>
             lazymatch x with
             | context [match _ with _ => _ end] => fail
             | _ => destruct x eqn:?; cbn in H
             end
         end.

Lemma stop_service_early os n force m svc :
  service n m = Some svc ->
  status svc = Stopped \/ truthy (pid svc) = false ->
  stop_service os n force m = (Ok true, m).
Proof.
  intros Hs H. unfold stop_service. run. rewrite Hs.
  assert (E : bool_decide (status svc = Stopped) || negb (truthy (pid svc)) = true).
  { destruct H as [H|H]; [rewrite (bool_decide_eq_true_2 _ H)|rewrite H, orb_true_r];
      reflexivity. }
  now rewrite E.
Qed.

(** Every outcome of [stop_service] on a tracked service (status not
    [stopped], PID present and not zero): it returns [True] with the
    service [stopped], its PID cleared and its PID file removed, or it
    returns [False] with the service left [stopping]. *)
Lemma stop_service_tracked os n force m svc p b m' :
  service n m = Some svc ->
  status svc <> Stopped -> pid svc = Some p -> p <> 0 ->
  stop_service os n force m = (Ok b, m') ->
  (forall n', n' <> n -> service n' m' = service n' m /\
                         pid_files m' !! n' = pid_files m !! n') /\
  keys m' = keys m /\
  exists svc', service n m' = Some svc' /\
    (b = true /\ status svc' = Stopped /\ pid svc' = None /\ pid_files m' !! n = None \/
     b = false /\ svc' = set_status Stopping svc /\ pid_files m' = pid_files m).
Proof.
  intros Hs Hst Hp Hnz H. unfold stop_service in H. run_in H. rewrite Hs in H.
  assert (E : bool_decide (status svc = Stopped) || negb (truthy (pid svc)) = false).
  { rewrite (bool_decide_eq_false_2 _ Hst), Hp. simpl.
    apply Z.eqb_neq in Hnz. now rewrite Hnz. }
  rewrite E in H. clear E. paths H; injection H as <- <-;
    (split; [intros n' Hn'; split;
               [other_service; reflexivity
               |cbn; rewrite ?lookup_delete_ne by congruence; reflexivity]|]);
    (split; [unfold keys; cbn; rewrite ?map_fst_modify; reflexivity|]);
    autorewrite with registry; rewrite Hs; cbn;
    eexists; (split; [reflexivity|]);
    first [left; repeat split; apply lookup_delete_eq | right; repeat split].
Qed.

(** C5.  In a coherent manager, stopping a service whose status is
    [stopped], or that tracks no PID, or whose tracked PID no longer exists,
    returns [True] (it does not raise and does not return [False]), leaves
    no PID file for the service, and a further stop returns [True] again
    without changing anything. *)
Theorem stop_service_idempotent
    (os os' : StopOS) (service_name : string) (force force' : bool)
    (m : ServiceManager) (svc : ServiceInfo) :
  coherent m = true ->
  service service_name m = Some svc ->
  (status svc = Stopped \/ pid svc = None \/
   exists p, pid svc = Some p /\ stop_pid_exists os p = false) ->
  exists m',
    stop_service os service_name force m = (Ok true, m') /\
    pid_files m' !! service_name = None /\
    stop_service os' service_name force' m' = (Ok true, m').
Proof.
  intros Hc Hs Hcase.
  pose proof (proj1 (coherent_spec m) Hc _ _ Hs) as Hw.
  assert (Early : status svc = Stopped \/ truthy (pid svc) = false ->
                  exists m', stop_service os service_name force m = (Ok true, m') /\
                             pid_files m' !! service_name = None /\
                             stop_service os' service_name force' m' = (Ok true, m')).
  { intros He. exists m. split; [now apply stop_service_early with svc|].
    split; [|now apply stop_service_early with svc].
    destruct He as [He|He];
      [now apply (well_tracked_stopped _ _ Hw)|now apply (well_tracked_untracked _ _ Hw)]. }
  destruct Hcase as [H|[H|(p & Hp & Hdead)]]; [apply Early; now left| |].
  { apply Early. right. now rewrite H. }
  destruct (decide (status svc = Stopped)) as [Hst|Hst]; [apply Early; now left|].
  destruct (decide (p = 0)) as [->|Hnz]; [apply Early; right; now rewrite Hp|].
  destruct (stop_service_returns os service_name force m) as (b & m' & evs & E & _).
  destruct (stop_service_tracked _ _ _ _ _ _ _ _ Hs Hst Hp Hnz E)
    as (_ & _ & svc' & Hs' & [(-> & Hst' & Hp' & Hf)|(-> & _ & _)]).
  - exists m'. split; [exact E|]. split; [exact Hf|].
    apply stop_service_early with svc'; [exact Hs'|now left].
  - exfalso. unfold stop_service in E. run_in E. rewrite Hs in E.
    rewrite (bool_decide_eq_false_2 _ Hst), Hp in E. cbn in E.
    apply Z.eqb_neq in Hnz. rewrite Hnz, Hdead in E. cbn in E. discriminate.
Qed.

(** Every outcome of [start_service] on a known service. *)
Lemma start_service_outcomes os n bg m svc b m' :
  service n m = Some svc ->
  start_service os n bg m = (Ok b, m') ->
  (forall n', n' <> n -> service n' m' = service n' m /\
                         pid_files m' !! n' = pid_files m !! n') /\
  keys m' = keys m /\
  exists svc', service n m' = Some svc' /\
    (running_and_alive (start_pid_exists os) svc = true /\ b = true /\ m' = m \/
     running_and_alive (start_pid_exists os) svc = false /\
     ((exists child,
          start_Popen os = Ok child /\
          pid svc' = Some (Z.pos child) /\
          start_time svc' = Some (start_now os) /\
          pid_files m' !! n = Some (PyStr.str (Z.pos child)) /\
          spawned (effects m') = spawned (effects m) ++ [child] /\
          (b = true /\ status svc' = Running /\ grace_pid_exists os (Z.pos child) = true \/
           b = false /\ status svc' = Errored /\ grace_pid_exists os (Z.pos child) = false)) \/
      b = false /\ svc' = set_status Errored svc /\ pid_files m' = pid_files m /\
      spawned (effects m') = spawned (effects m))).
Proof.
  intros Hs H. unfold start_service in H. run_in H. rewrite Hs in H.
  destruct (running_and_alive (start_pid_exists os) svc) eqn:Era.
  { injection H as <- <-. split; [auto|]. split; [reflexivity|].
    exists svc. split; [exact Hs|]. left. auto. }
  paths H; injection H as <- <-;
    (split; [intros n' Hn'; split;
               [other_service; reflexivity
               |cbn; rewrite ?lookup_insert_ne by congruence; reflexivity]|]);
    (split; [unfold keys; cbn; rewrite ?map_fst_modify; reflexivity|]);
    autorewrite with registry; rewrite Hs; cbn;
    eexists; (split; [reflexivity|]); right; (split; [reflexivity|]);
    first [ right; repeat split; cbn; unfold spawned; rewrite ?flat_map_app; cbn;
            rewrite ?app_nil_r; reflexivity
          | left; eexists; split; [reflexivity|]; cbn;
            repeat (split; [first [reflexivity | apply lookup_insert_eq
                                  | unfold spawned; rewrite !flat_map_app; cbn;
                                    rewrite ?app_nil_r; reflexivity]|]);
            first [ left; repeat split; now apply negb_false_iff
                  | right; repeat split; now apply negb_true_iff ] ].
Qed.

(** Every outcome of [get_service_status] on a known service: either the
    tracked PID has vanished and the service is reset, or only the two
    usage figures may have changed. *)
Lemma get_service_status_outcomes os n m svc r m' :
  service n m = Some svc ->
  get_service_status os n m = (r, m') ->
  (forall n', n' <> n -> service n' m' = service n' m /\
                         pid_files m' !! n' = pid_files m !! n') /\
  keys m' = keys m /\ effects m' = effects m /\
  exists svc', service n m' = Some svc' /\
    (status svc = Running /\ (exists p, pid svc = Some p /\ p <> 0 /\
                                        status_pid_exists os p = false) /\
     r = Ok (Some svc') /\
     svc' = set_start_time None (set_pid None (set_status Stopped svc)) /\
     pid_files m' = delete n (pid_files m) \/
     status svc' = status svc /\ pid svc' = pid svc /\ start_time svc' = start_time svc /\
     pid_files m' = pid_files m /\
     ~ (status svc = Running /\ exists p, pid svc = Some p /\ p <> 0 /\
                                          status_pid_exists os p = false)).
Proof.
  intros Hs H. unfold get_service_status, _update_service_stats in H. run_in H.
  rewrite Hs in H.
  destruct (bool_decide (status svc = Running)) eqn:Est; cbn in H.
  2:{ injection H as <- <-. apply bool_decide_eq_false in Est.
      split; [auto|]. do 2 (split; [reflexivity|]). exists svc. split; [exact Hs|].
      right. repeat split. intros [? _]. contradiction. }
  apply bool_decide_eq_true in Est.
  destruct (pid svc) as [p|] eqn:Ep; cbn in H.
  2:{ injection H as <- <-. split; [auto|]. do 2 (split; [reflexivity|]).
      exists svc. split; [exact Hs|]. right. rewrite Ep. repeat split.
      intros (_ & q & [=] & _). }
  destruct (Z.eqb p 0) eqn:Ez; cbn in H.
  { injection H as <- <-. apply Z.eqb_eq in Ez. split; [auto|].
    do 2 (split; [reflexivity|]). exists svc. split; [exact Hs|]. right.
    rewrite Ep. repeat split. intros (_ & q & [= <-] & Hq & _). contradiction. }
  apply Z.eqb_neq in Ez.
  destruct (status_pid_exists os p) eqn:Ealive; cbn in H.
  - rewrite Hs, Ep in H. cbn in H. apply Z.eqb_neq in Ez. rewrite Ez in H. cbn in H.
    paths H; injection H as <- <-;
      (split; [intros n' Hn'; split; [other_service; reflexivity|reflexivity]|]);
      (split; [unfold keys; cbn; rewrite ?map_fst_modify; reflexivity|]);
      (split; [reflexivity|]);
      autorewrite with registry; rewrite Hs; cbn;
      eexists; (split; [reflexivity|]); right; cbn; rewrite ?Ep;
      repeat (split; [reflexivity|]);
      intros (_ & q & [= <-] & _ & Hq); congruence.
  - injection H as <- <-.
    split; [intros n' Hn'; split;
              [other_service; reflexivity|cbn; now rewrite lookup_delete_ne by congruence]|].
    split; [unfold keys; cbn; rewrite ?map_fst_modify; reflexivity|].
    split; [reflexivity|].
    autorewrite with registry. rewrite Hs. cbn.
    eexists. split; [reflexivity|]. left. split; [exact Est|].
    split; [exists p; auto|]. repeat split.
    rewrite !assoc_modify_eq. fold (service n m). now rewrite Hs.
Qed.

(** ** Reconciliation *)

(** The PID file names a live process whose command line matches: the
    service is [running] with the recorded PID and the creation time of the
    process, and the file stays. *)
Lemma load_pid_matching os n m svc content p process t :
  service n m = Some svc ->
  pid_files m !! n = Some content ->
  PyStr.int (PyStr.strip content) = Some p ->
  load_pid_exists os p = true ->
  load_Process os p = Ok process ->
  _is_our_process process n = true ->
  create_time process = Ok t ->
  exists m',
    load_pid os n m = (Ok tt, m') /\
    service n m' = Some (set_start_time (Some t) (set_status Running (set_pid (Some p) svc))) /\
    pid_files m' = pid_files m.
Proof.
  intros Hs Hf Hi He Hp Ho Ht. unfold load_pid. run.
  rewrite Hf, Hi, He, Hp, Ho, Ht. cbn. eexists. split; [reflexivity|].
  autorewrite with registry. rewrite Hs. split; reflexivity.
Qed.

(** The PID file names a PID that does not exist, or a live process that is
    not recognised as the service: the file is removed and the registry is
    left as it was. *)
Lemma load_pid_stale os n m content p :
  pid_files m !! n = Some content ->
  PyStr.int (PyStr.strip content) = Some p ->
  (load_pid_exists os p = false \/
   exists process, load_pid_exists os p = true /\ load_Process os p = Ok process /\
                   _is_our_process process n = false) ->
  load_pid os n m = (Ok tt, with_pid_files (delete n) m).
Proof.
  intros Hf Hi H. unfold load_pid. run. rewrite Hf, Hi.
  destruct H as [He|(process & He & Hp & Ho)]; rewrite He; [reflexivity|].
  now rewrite Hp, Ho.
Qed.

(** Reconciling a service that is still in its initial state leaves it well
    tracked and within the invariant of the data model. *)
Lemma load_pid_well_tracked os n m svc m' :
  service n m = Some svc ->
  status svc = Stopped -> pid svc = None ->
  pid_zero_is_foreign os n ->
  load_pid os n m = (Ok tt, m') ->
  (forall n', n' <> n -> service n' m' = service n' m /\
                         pid_files m' !! n' = pid_files m !! n') /\
  keys m' = keys m /\
  exists svc', service n m' = Some svc' /\
               well_tracked svc' (pid_files m' !! n) = true /\
               pid_invariant svc' = true.
Proof.
  intros Hs Hst Hp Hz H. unfold load_pid in H. run_in H.
  destruct (pid_files m !! n) as [content|] eqn:Hf.
  2:{ injection H as <-. split; [auto|]. split; [reflexivity|]. exists svc.
      split; [exact Hs|]. unfold well_tracked, pid_invariant. rewrite Hst, Hp, Hf.
      split; reflexivity. }
  destruct (PyStr.int (PyStr.strip content)) as [p|] eqn:Hi; cbn in H.
  2:{ injection H as <-. split; [intros n' Hn'; split;
                                   [reflexivity|cbn; now rewrite lookup_delete_ne by congruence]|].
      split; [reflexivity|]. exists svc. split; [exact Hs|]. cbn.
      unfold well_tracked, pid_invariant. rewrite Hst, Hp, lookup_delete_eq.
      split; reflexivity. }
  assert (Hnz : load_pid_exists os p = true ->
                forall a, load_Process os p = Ok a -> _is_our_process a n = true ->
                          Z.eqb p 0 = false).
  { intros E a Ea Eo. apply Z.eqb_neq. intros ->. specialize (Hz E a Ea). congruence. }
  paths H; try discriminate; injection H as <-;
    (split; [intros n' Hn'; split;
               [other_service; reflexivity
               |cbn; rewrite ?lookup_delete_ne by congruence; reflexivity]|]);
    (split; [unfold keys; cbn; rewrite ?map_fst_modify; reflexivity|]);
    autorewrite with registry; rewrite Hs; cbn;
    eexists; (split; [reflexivity|]); unfold well_tracked, pid_invariant; cbn;
    rewrite ?Hst, ?Hp, ?lookup_delete_eq; cbn;
    try (rewrite (Hnz eq_refl _ eq_refl) by assumption);
    split; reflexivity.
Qed.

Lemma coherent_intro m :
  (forall n svc, service n m = Some svc -> well_tracked svc (pid_files m !! n) = true) ->
  coherent m = true.
Proof. apply coherent_spec. Qed.

(** A manager that [__init__] returns is coherent, satisfies the invariant
    and has the two services of the registry. *)
Lemma init_coherent sys_executable base_dir platform_system disk os m :
  (forall n, pid_zero_is_foreign (os n) n) ->
  init sys_executable base_dir platform_system disk os = (Ok tt, m) ->
  coherent m = true /\ invariant m = true /\ keys m = ["smtp_server"; "web_interface"].
Proof.
  intros Hz H. unfold init, _load_pids in H.
  unfold mbind at 1, M_bind at 1, get in H. cbn [map fst services registry load_each] in H.
  set (m0 := mkManager _ _ _ _) in H.
  unfold mbind at 1, M_bind at 1 in H.
  destruct (load_pid (os "smtp_server") "smtp_server" m0) as [[[]|e] m1] eqn:E1;
    [|discriminate].
  unfold mbind at 1, M_bind at 1 in H.
  destruct (load_pid (os "web_interface") "web_interface" m1) as [[[]|e] m2] eqn:E2;
    [|discriminate].
  injection H as <-.
  destruct (load_pid_well_tracked (os "smtp_server") "smtp_server" m0 _ m1
              eq_refl eq_refl eq_refl (Hz _) E1)
    as (F1 & K1 & s1 & S1 & W1 & I1).
  destruct (F1 "web_interface" ltac:(discriminate)) as [Sw _]. cbn in Sw.
  destruct (load_pid_well_tracked _ _ _ _ _ Sw eq_refl eq_refl (Hz _) E2)
    as (F2 & K2 & s2 & S2 & W2 & I2).
  destruct (F2 "smtp_server" ltac:(discriminate)) as [Ss Fs].
  split; [|split; [|now rewrite K2, K1]].
  - unfold coherent, every_service. rewrite K2, K1. cbn.
    rewrite Ss, S1, Fs, W1, S2, W2. reflexivity.
  - unfold invariant, every_service. rewrite K2, K1. cbn.
    rewrite Ss, S1, I1, S2, I2. reflexivity.
Qed.

(** ** Coherence is kept by every lifecycle method *)

Lemma coherent_frame m m' n :
  (forall n', n' <> n -> service n' m' = service n' m /\
                         pid_files m' !! n' = pid_files m !! n') ->
  coherent m = true ->
  (forall svc', service n m' = Some svc' -> well_tracked svc' (pid_files m' !! n) = true) ->
  coherent m' = true.
Proof.
  intros F Hc Hn. apply coherent_intro. intros n' svc' Hs'.
  destruct (decide (n' = n)) as [->|Hne]; [now apply Hn|].
  destruct (F n' Hne) as [E1 E2]. rewrite E2. rewrite E1 in Hs'.
  now apply (proj1 (coherent_spec m) Hc).
Qed.


Lemma stop_service_coherent os n force m b m' :
  coherent m = true -> stop_service os n force m = (Ok b, m') -> coherent m' = true.
Proof.
  intros Hc H. destruct (service n m) as [svc|] eqn:Hs.
  2:{ unfold stop_service in H. run_in H. rewrite Hs in H. now injection H as <- <-. }
  destruct (decide (status svc = Stopped)) as [Hst|Hst].
  { rewrite (stop_service_early os n force m svc Hs (or_introl Hst)) in H.
    now injection H as <- <-. }
  destruct (truthy (pid svc)) eqn:Ht.
  2:{ rewrite (stop_service_early os n force m svc Hs (or_intror Ht)) in H.
      now injection H as <- <-. }
  destruct (pid svc) as [p|] eqn:Hp; [|discriminate]. cbn in Ht.
  apply negb_true_iff, Z.eqb_neq in Ht.
  destruct (stop_service_tracked _ _ _ _ _ _ _ _ Hs Hst Hp Ht H)
    as (F & _ & svc' & Hs' & Hcase).
  apply (coherent_frame m m' n F Hc). intros s Hs''. rewrite Hs' in Hs''.
  injection Hs'' as <-. unfold well_tracked.
  destruct Hcase as [(_ & E1 & E2 & E3)|(_ & -> & _)].
  - rewrite E1, E2, E3. reflexivity.
  - cbn. rewrite Hp. cbn. apply Z.eqb_neq in Ht. now rewrite Ht.
Qed.



(** ** The invariant of the data model *)

Lemma every_service_spec P m :
  every_service P m = true <->
  forall n svc, service n m = Some svc -> P n svc = true.
Proof.
  unfold every_service. rewrite forallb_forall. split.
  - intros H n svc Hs. specialize (H n). rewrite Hs in H. apply H.
    apply assoc_In in Hs. apply (in_map fst) in Hs. exact Hs.
  - intros H n _. destruct (service n m) eqn:E; [now apply H|reflexivity].
Qed.

Lemma invariant_frame m m' n :
  (forall n', n' <> n -> service n' m' = service n' m) ->
  invariant m = true ->
  (forall svc', service n m' = Some svc' -> pid_invariant svc' = true) ->
  invariant m' = true.
Proof.
  intros F Hc Hn. apply every_service_spec. intros n' svc' Hs'.
  destruct (decide (n' = n)) as [->|Hne]; [now apply Hn|].
  rewrite (F n' Hne) in Hs'.
  now apply (proj1 (every_service_spec _ m) Hc n').
Qed.

(** [stop_service] keeps the invariant. *)
Lemma stop_service_invariant os n force m b m' :
  invariant m = true -> stop_service os n force m = (Ok b, m') -> invariant m' = true.
Proof.
  intros Hc H. destruct (service n m) as [svc|] eqn:Hs.
  2:{ unfold stop_service in H. run_in H. rewrite Hs in H. now injection H as <- <-. }
  destruct (decide (status svc = Stopped)) as [Hst|Hst].
  { rewrite (stop_service_early os n force m svc Hs (or_introl Hst)) in H.
    now injection H as <- <-. }
  destruct (truthy (pid svc)) eqn:Ht.
  2:{ rewrite (stop_service_early os n force m svc Hs (or_intror Ht)) in H.
      now injection H as <- <-. }
  destruct (pid svc) as [p|] eqn:Hp; [|discriminate]. cbn in Ht.
  apply negb_true_iff, Z.eqb_neq in Ht.
  destruct (stop_service_tracked _ _ _ _ _ _ _ _ Hs Hst Hp Ht H)
    as (F & _ & svc' & Hs' & Hcase).
  apply (invariant_frame m m' n (fun n' Hn' => proj1 (F n' Hn')) Hc).
  intros s Hs''. rewrite Hs' in Hs''. injection Hs'' as <-. unfold pid_invariant.
  destruct Hcase as [(_ & E1 & E2 & _)|(_ & -> & _)].
  - now rewrite E1, E2.
  - cbn. now rewrite Hp.
Qed.

(** [get_service_status] keeps the invariant. *)
Lemma get_service_status_invariant os n m r m' :
  invariant m = true -> get_service_status os n m = (r, m') -> invariant m' = true.
Proof.
  intros Hc H. destruct (service n m) as [svc|] eqn:Hs.
  2:{ unfold get_service_status in H. run_in H. rewrite Hs in H. now injection H as <- <-. }
  pose proof (proj1 (every_service_spec _ m) Hc _ _ Hs) as Hw. cbn in Hw.
  destruct (get_service_status_outcomes _ _ _ _ _ _ Hs H)
    as (F & _ & _ & svc' & Hs' & Hcase).
  apply (invariant_frame m m' n (fun n' Hn' => proj1 (F n' Hn')) Hc).
  intros s Hs''. rewrite Hs' in Hs''. injection Hs'' as <-.
  destruct Hcase as [(_ & _ & _ & -> & _)|(E1 & E2 & _)].
  - reflexivity.
  - unfold pid_invariant in *. now rewrite E1, E2.
Qed.

(** [start_service] keeps the invariant whenever it returns [True]. *)
Lemma start_service_invariant_on_success os n bg m m' :
  invariant m = true -> start_service os n bg m = (Ok true, m') -> invariant m' = true.
Proof.
  intros Hc H. destruct (service n m) as [svc|] eqn:Hs.
  2:{ unfold start_service in H. run_in H. rewrite Hs in H. discriminate. }
  destruct (start_service_outcomes _ _ _ _ _ _ _ Hs H) as (F & _ & svc' & Hs' & Hcase).
  destruct Hcase as [(_ & _ & ->)|(_ & [(c & _ & Hp & _ & _ & _ & Hb)|(? & _)])];
    [exact Hc| |discriminate].
  apply (invariant_frame m m' n (fun n' Hn' => proj1 (F n' Hn')) Hc).
  intros s Hs''. rewrite Hs' in Hs''. injection Hs'' as <-.
  destruct Hb as [(_ & Hst & _)|(? & _)]; [|discriminate].
  unfold pid_invariant. now rewrite Hst, Hp.
Qed.

(** ** The fingerprint of a service against its own command line *)

Lemma lower_app a b : PyStr.lower (a ++ b)%string = (PyStr.lower a ++ PyStr.lower b)%string.
Proof.
  induction a as [|c a IH]; [reflexivity|].
  change (String (PyStr.lower_char c) (PyStr.lower (a ++ b)%string) =
          String (PyStr.lower_char c) (PyStr.lower a ++ PyStr.lower b)%string).
  now rewrite IH.
Qed.

Lemma append_nil_l (s : string) : ("" ++ s)%string = s.
Proof. reflexivity. Qed.

Lemma append_cons c (a b : string) : (String c a ++ b)%string = String c (a ++ b)%string.
Proof. reflexivity. Qed.

Lemma startswith_app_blank sub s rest :
  no_blank sub = true ->
  PyStr.startswith sub (s ++ String " " rest)%string = PyStr.startswith sub s.
Proof.
  revert sub. induction s as [|a s IH]; intros [|c sub] Hb;
    rewrite ?append_nil_l, ?append_cons; try reflexivity.
  - cbn in Hb. apply andb_true_iff in Hb as [Hc _]. apply negb_true_iff in Hc.
    cbn. now rewrite Hc.
  - cbn in Hb. apply andb_true_iff in Hb as [_ Hb]. cbn. now rewrite IH.
Qed.

Lemma contains_app_blank sub s rest :
  no_blank sub = true ->
  PyStr.contains sub (s ++ String " " rest)%string =
  PyStr.contains sub s || PyStr.contains sub (String " " rest).
Proof.
  intros Hb. induction s as [|a s IH].
  - rewrite append_nil_l. destruct sub as [|c sub]; reflexivity.
  - rewrite append_cons. cbn [PyStr.contains]. rewrite IH.
    rewrite <- append_cons, (startswith_app_blank _ _ _ Hb). now rewrite orb_assoc.
Qed.

(** Unless the path of the interpreter happens to contain the fingerprint,
    the process launched from a service's own command is not recognised:
    the fingerprint is the service name without its underscore, and the
    command line carries the script name with it. *)
Lemma own_command_not_recognised interpreter t :
  (PyStr.contains "smtpserver" (PyStr.lower interpreter) = false ->
   _is_our_process (mkProcess (Ok [interpreter; "smtp_server.py"]) t) "smtp_server" = false) /\
  (PyStr.contains "webinterface" (PyStr.lower interpreter) = false ->
   _is_our_process (mkProcess (Ok [interpreter; "web_interface.py"]) t) "web_interface" = false).
Proof.
  split; intros H; unfold _is_our_process; cbn [cmdline PyStr.join];
    rewrite lower_app;
    match goal with
    | |- context [PyStr.lower (" " ++ ?s)%string] =>
        change (PyStr.lower (" " ++ s)%string) with (String " " (PyStr.lower s))
    end;
    match goal with
    | |- PyStr.contains ?f _ = _ =>
        let f' := eval vm_compute in f in change f with f'
    end;
    (rewrite contains_app_blank by reflexivity); rewrite H; vm_compute; reflexivity.
Qed.

(** ** Reachable managers *)

Lemma start_service_keys os n bg m : keys (snd (start_service os n bg m)) = keys m.
Proof.
  destruct (start_service_returns os n bg m) as (b & m' & ? & E & _). rewrite E. cbn.
  destruct (service n m) as [svc|] eqn:Hs.
  - now destruct (start_service_outcomes _ _ _ _ _ _ _ Hs E) as (_ & K & _).
  - unfold start_service in E. run_in E. rewrite Hs in E. now injection E as <- <-.
Qed.

Lemma stop_service_keys os n force m : keys (snd (stop_service os n force m)) = keys m.
Proof.
  destruct (stop_service_returns os n force m) as (b & m' & ? & E & _). rewrite E. cbn.
  destruct (service n m) as [svc|] eqn:Hs.
  2:{ unfold stop_service in E. run_in E. rewrite Hs in E. now injection E as <- <-. }
  destruct (decide (status svc = Stopped)) as [Hst|Hst].
  { rewrite (stop_service_early os n force m svc Hs (or_introl Hst)) in E.
    now injection E as <- <-. }
  destruct (truthy (pid svc)) eqn:Ht.
  2:{ rewrite (stop_service_early os n force m svc Hs (or_intror Ht)) in E.
      now injection E as <- <-. }
  destruct (pid svc) as [p|] eqn:Hp; [|discriminate]. cbn in Ht.
  apply negb_true_iff, Z.eqb_neq in Ht.
  now destruct (stop_service_tracked _ _ _ _ _ _ _ _ Hs Hst Hp Ht E) as (_ & K & _).
Qed.

Lemma get_service_status_keys os n m : keys (snd (get_service_status os n m)) = keys m.
Proof.
  destruct (get_service_status os n m) as [r m'] eqn:E. cbn.
  destruct (service n m) as [svc|] eqn:Hs.
  - now destruct (get_service_status_outcomes _ _ _ _ _ _ Hs E) as (_ & K & _).
  - unfold get_service_status in E. run_in E. rewrite Hs in E. now injection E as <- <-.
Qed.



(** A first start that has to launch the process, followed by a second
    start while that process is alive: both return [True] and one child
    was created in all. *)
Lemma start_twice_spawns_once os os' n bg bg' m svc m1 :
  service n m = Some svc ->
  running_and_alive (start_pid_exists os) svc = false ->
  start_service os n bg m = (Ok true, m1) ->
  (forall p, pid <$> service n m1 = Some (Some p) -> start_pid_exists os' p = true) ->
  exists child,
    start_Popen os = Ok child /\
    (pid <$> service n m1) = Some (Some (Z.pos child)) /\
    start_service os' n bg' m1 = (Ok true, m1) /\
    spawned (effects m1) = spawned (effects m) ++ [child].
Proof.
  intros Hs Hra H Halive.
  destruct (start_service_outcomes _ _ _ _ _ _ _ Hs H) as (_ & _ & svc' & Hs' & Hcase).
  destruct Hcase as [(E & _)|(_ & [(c & Hc & Hp & _ & _ & Hsp & Hb)|(? & _)])];
    [congruence| |discriminate].
  destruct Hb as [(_ & Hst & _)|(? & _)]; [|discriminate].
  exists c. split; [exact Hc|]. split; [now rewrite Hs'; cbn; rewrite Hp|].
  split; [|exact Hsp].
  unfold start_service. run. rewrite Hs'.
  assert (E : running_and_alive (start_pid_exists os') svc' = true).
  { apply running_and_alive_true. split; [exact Hst|]. exists (Z.pos c).
    repeat split; [exact Hp|discriminate|]. apply Halive. rewrite Hs'. cbn. now rewrite Hp. }
  now rewrite E.
Qed.

(** ** The session, step by step *)

(** C1.  The supervisor launches [smtp_server] from its configured command
    and is started again while that process is alive.  The fingerprint
    [smtpserver] does not occur in the command line
    [/usr/bin/python3 smtp_server.py], so reconciliation treats the process
    as foreign: the PID file is removed and the service is [stopped]. *)
Theorem reconcile_own_process_lost :
  (command <$> service "smtp_server" fresh) = Some "/usr/bin/python3 smtp_server.py" /\
  effects started = [EvPopen ["/usr/bin/python3"; "smtp_server.py"] true (Ok 4242%positive);
                     EvSleep 2] /\
  (runtime <$> service "smtp_server" started) =
    Some (Running, Some 4242, Some 1700000000, 0%float, 0%float) /\
  pid_files started !! "smtp_server" = Some "4242" /\
  cmdline own_process = Ok ["/usr/bin/python3"; "smtp_server.py"] /\
  _is_our_process own_process "smtp_server" = false /\
  fst restarted = Ok tt /\
  (runtime <$> service "smtp_server" (snd restarted)) =
    Some (Stopped, None, None, 0%float, 0%float) /\
  pid_files (snd restarted) !! "smtp_server" = None.
Proof. repeat split; vm_compute; reflexivity. Qed.

(** C2.  The launched process has exited when the grace period ends:
    [start_service] returns [False] and the status is [error], but the PID
    file written before the check is still there and the [pid] field still
    holds the PID of the dead process. *)
Theorem start_crash_keeps_pid_record :
  exists m',
    start_service crashing_start "smtp_server" true fresh = (Ok false, m') /\
    (runtime <$> service "smtp_server" m') =
      Some (Errored, Some 4242, Some 1700000000, 0%float, 0%float) /\
    pid_files m' !! "smtp_server" = Some "4242".
Proof. eexists. repeat split; vm_compute; reflexivity. Qed.

(** C3.  The fresh manager satisfies the invariant; after a start whose
    process exits within the grace period the service is [error] with a PID
    present, so the invariant no longer holds. *)
Theorem start_crash_breaks_invariant :
  invariant fresh = true /\
  exists m',
    start_service crashing_start "smtp_server" true fresh = (Ok false, m') /\
    (status <$> service "smtp_server" m') = Some Errored /\
    (pid <$> service "smtp_server" m') = Some (Some 4242) /\
    invariant m' = false.
Proof. split; [|eexists; repeat split]; vm_compute; reflexivity. Qed.

(** C4.  [stop_service] returns [True] when signalling raises
    [AccessDenied], when the process handle raises [NoSuchProcess], and when
    the PID does not exist; the service is then [stopped] without PID and
    without PID file, but [start_time], [cpu_percent] and [memory_mb] keep
    the values they had. *)
Theorem stop_success_keeps_usage :
  (runtime <$> service "smtp_server" observed) =
    Some (Running, Some 4242, Some 1700000000, 12.5%float, 32%float) /\
  (exists m',
      stop_service denied_stop "smtp_server" false observed = (Ok true, m') /\
      (runtime <$> service "smtp_server" m') =
        Some (Stopped, None, Some 1700000000, 12.5%float, 32%float) /\
      pid_files m' !! "smtp_server" = None) /\
  (exists m',
      stop_service racing_stop "smtp_server" false observed = (Ok true, m') /\
      (runtime <$> service "smtp_server" m') =
        Some (Stopped, None, Some 1700000000, 12.5%float, 32%float) /\
      pid_files m' !! "smtp_server" = None) /\
  (exists m',
      stop_service dead_stop "smtp_server" false observed = (Ok true, m') /\
      (runtime <$> service "smtp_server" m') =
        Some (Stopped, None, Some 1700000000, 12.5%float, 32%float) /\
      pid_files m' !! "smtp_server" = None).
Proof.
  split; [vm_compute; reflexivity|].
  repeat split; eexists; repeat split; vm_compute; reflexivity.
Qed.

(** C9.  The tracked PID has vanished when the status is queried: the
    service becomes [stopped], [pid] and [start_time] are cleared and the
    PID file is removed, but [cpu_percent] and [memory_mb] keep the last
    sampled values. *)
Theorem status_heal_keeps_usage :
  (runtime <$> service "smtp_server" observed) =
    Some (Running, Some 4242, Some 1700000000, 12.5%float, 32%float) /\
  exists svc' m',
    get_service_status vanished "smtp_server" observed = (Ok (Some svc'), m') /\
    runtime svc' = (Stopped, None, None, 12.5%float, 32%float) /\
    pid_files m' !! "smtp_server" = None.
Proof. split; [|eexists _, _; repeat split]; vm_compute; reflexivity. Qed.

(** ** Instances of the general theorems *)

Lemma unknown_service_rejected_witness :
  start_service healthy_start "database" true fresh = (Ok false, fresh) /\
  stop_service dead_stop "database" false fresh = (Ok false, fresh) /\
  get_service_status sampled "database" fresh = (Ok None, fresh).
Proof.
  apply (unknown_service_rejected healthy_start dead_stop sampled "database" true false fresh);
    [reflexivity | discriminate | discriminate].
Defined.

Lemma start_service_idempotent_witness :
  start_service second_start "smtp_server" true started = (Ok true, started) /\
  (start_service second_start "smtp_server" true;;
   start_service second_start "smtp_server" false) started = (Ok true, started).
Proof.
  apply (start_service_idempotent second_start second_start "smtp_server" true false
           started
           (mkServiceInfo "smtp_server" (Some 4242) Running (Some 1025) (Some 1700000000)
              0%float 0%float "/usr/bin/python3 smtp_server.py"
              "/srv/app/logs/smtp_server.log")
           4242);
    [vm_compute; reflexivity | reflexivity | reflexivity | lia | reflexivity | reflexivity].
Defined.

Lemma stop_service_idempotent_witness :
  exists m',
    stop_service dead_stop "smtp_server" false observed = (Ok true, m') /\
    pid_files m' !! "smtp_server" = None /\
    stop_service denied_stop "smtp_server" true m' = (Ok true, m').
Proof.
  apply (stop_service_idempotent dead_stop denied_stop "smtp_server" false true observed
           (mkServiceInfo "smtp_server" (Some 4242) Running (Some 1025) (Some 1700000000)
              12.5%float 32%float "/usr/bin/python3 smtp_server.py"
              "/srv/app/logs/smtp_server.log"));
    [vm_compute; reflexivity | vm_compute; reflexivity
    | right; right; exists 4242; split; reflexivity].
Defined.

(** * Further properties of the supervisor *)

(** ** A PID written by [_save_pid] is read back by [_load_pids] *)

Lemma isdigit_not_space c : PyStr.isdigit c = true -> PyStr.isspace c = false.
Proof.
  destruct c as [[] [] [] [] [] [] [] []]; vm_compute; intros H;
    first [reflexivity | discriminate H].
Qed.

Lemma pretty_N_char_digit x :
  (x < 10)%N ->
  PyStr.isdigit (pretty_N_char x) = true /\
  PyStr.digit_value (pretty_N_char x) = Z.of_N x.
Proof.
  intros Hx.
  assert (x = 0 \/ x = 1 \/ x = 2 \/ x = 3 \/ x = 4 \/ x = 5 \/ x = 6 \/ x = 7 \/
          x = 8 \/ x = 9)%N as H by lia.
  repeat (destruct H as [->|H]; [split; reflexivity|]). subst x. split; reflexivity.
Qed.

Lemma pretty_N_go_digits x s :
  all_digits s = true ->
  all_digits (pretty_N_go x s) = true /\
  digits_value 0 (pretty_N_go x s) = digits_value (Z.of_N x) s.
Proof.
  revert s. induction (N.lt_wf_0 x) as [x _ IH]. intros s Hs.
  destruct (decide (x = 0%N)) as [->|Hx]; [rewrite pretty_N_go_0; auto|].
  rewrite pretty_N_go_step by lia.
  destruct (pretty_N_char_digit (x `mod` 10)%N) as [Hd Hv]; [apply N.mod_lt; lia|].
  destruct (IH (x `div` 10)%N) with (s := String (pretty_N_char (x `mod` 10)%N) s)
    as [IH1 IH2]; [apply N.div_lt; lia|cbn; now rewrite Hd, Hs|].
  split; [exact IH1|]. rewrite IH2. cbn [digits_value]. rewrite Hv.
  f_equal. pose proof (N.div_mod x 10). lia.
Qed.

Lemma pretty_N_go_nonempty x s : s <> "" -> pretty_N_go x s <> "".
Proof.
  revert s. induction (N.lt_wf_0 x) as [x _ IH]. intros s Hs.
  destruct (decide (x = 0%N)) as [->|Hx]; [now rewrite pretty_N_go_0|].
  rewrite pretty_N_go_step by lia. apply IH; [apply N.div_lt; lia|discriminate].
Qed.

Lemma digits_all_digits s prev acc :
  all_digits s = true -> s <> "" \/ prev = true ->
  PyStr.digits prev acc s = Some (digits_value acc s).
Proof.
  revert prev acc. induction s as [|c s IH]; intros prev acc Hs Hne; cbn.
  - destruct Hne as [Hne| ->]; [contradiction|reflexivity].
  - cbn in Hs. apply andb_true_iff in Hs as [Hc Hs]. rewrite Hc.
    apply IH; [exact Hs|now right].
Qed.

Lemma strip_all_digits s : all_digits s = true -> PyStr.strip s = s.
Proof.
  intros Hs. unfold PyStr.strip.
  assert (L : PyStr.lstrip s = s).
  { destruct s as [|c s]; [reflexivity|]. cbn in *.
    apply andb_true_iff in Hs as [Hc _]. now rewrite (isdigit_not_space _ Hc). }
  rewrite L. clear L. induction s as [|c s IH]; [reflexivity|].
  cbn in Hs. apply andb_true_iff in Hs as [Hc Hs]. cbn. rewrite (IH Hs).
  destruct s; [now rewrite (isdigit_not_space _ Hc)|reflexivity].
Qed.

Lemma int_all_digits s :
  all_digits s = true -> s <> "" -> PyStr.int s = Some (digits_value 0 s).
Proof.
  intros Hs Hne. unfold PyStr.int. rewrite (strip_all_digits _ Hs).
  rewrite <- (digits_all_digits s false 0 Hs (or_introl Hne)).
  destruct s as [|c s]; [contradiction|]. cbn in Hs.
  apply andb_true_iff in Hs as [Hc _].
  destruct c as [[] [] [] [] [] [] [] []]; first [discriminate Hc | reflexivity].
Qed.

Lemma pretty_positive_digits x :
  all_digits (pretty (N.pos x)) = true /\ pretty (N.pos x) <> "" /\
  digits_value 0 (pretty (N.pos x)) = Z.pos x.
Proof.
  unfold pretty, pretty_N. destruct (decide (N.pos x = 0%N)) as [E|_]; [discriminate|].
  destruct (pretty_N_go_digits (N.pos x) "" eq_refl) as [H1 H2].
  split; [exact H1|]. split; [|exact H2].
  rewrite pretty_N_go_step by lia. apply pretty_N_go_nonempty. discriminate.
Qed.

Lemma int_str_strip_round_trip (p : Z) : PyStr.int (PyStr.strip (PyStr.str p)) = Some p.
Proof.
  unfold PyStr.str, pretty, pretty_Z. destruct p as [|x|x]; [reflexivity| |].
  - destruct (pretty_positive_digits x) as (H1 & H2 & H3).
    unfold pretty, pretty_positive. rewrite (strip_all_digits _ H1).
    rewrite (int_all_digits _ H1 H2). now rewrite H3.
  - destruct (pretty_positive_digits x) as (H1 & H2 & H3).
    unfold pretty, pretty_positive.
    set (d := pretty (N.pos x)) in *.
    change ("-" +:+ d) with (String "-" d).
    assert (S : PyStr.strip (String "-" d) = String "-" d).
    { unfold PyStr.strip. cbn [PyStr.lstrip]. change (PyStr.isspace "-") with false.
      cbn iota. cbn [PyStr.rstrip].
      pose proof (strip_all_digits d H1) as Sd. unfold PyStr.strip in Sd.
      assert (L : PyStr.lstrip d = d).
      { destruct d as [|c d']; [reflexivity|]. cbn in *.
        apply andb_true_iff in H1 as [Hc _]. now rewrite (isdigit_not_space _ Hc). }
      rewrite L in Sd. rewrite Sd. destruct d; [contradiction|reflexivity]. }
    rewrite S. unfold PyStr.int. rewrite S.
    rewrite (digits_all_digits d false 0 H1 (or_introl H2)), H3. reflexivity.
Qed.


(** X2.  Saving a PID and reconciling against a live process that is
    recognised as the service restores exactly that PID: the service is
    [running] with the saved PID and the creation time of the process, and
    the PID file is kept. *)
Theorem save_then_reconcile (os : LoadOS) (service_name : string) (p : Z)
    (m : ServiceManager) (svc : ServiceInfo) (process : Process) (t : Z) :
  service service_name m = Some svc ->
  load_pid_exists os p = true ->
  load_Process os p = Ok process ->
  _is_our_process process service_name = true ->
  create_time process = Ok t ->
  exists m',
    (_save_pid service_name p;; load_pid os service_name) m = (Ok tt, m') /\
    service service_name m' =
      Some (set_start_time (Some t) (set_status Running (set_pid (Some p) svc))) /\
    pid_files m' !! service_name = Some (PyStr.str p).
Proof.
  intros Hs He Hp Ho Ht.
  unfold mbind at 1, M_bind at 1, _save_pid, update.
  set (m1 := with_pid_files _ m).
  destruct (load_pid_matching os service_name m1 svc (PyStr.str p) p process t)
    as (m' & E & S & F); try assumption.
  - unfold m1. cbn. apply lookup_insert_eq.
  - apply int_str_strip_round_trip.
  - exists m'. split; [exact E|]. split; [exact S|]. rewrite F. unfold m1. cbn.
    apply lookup_insert_eq.
Qed.

Lemma save_then_reconcile_witness :
  exists m',
    (_save_pid "smtp_server" 4242;; load_pid recognised "smtp_server") fresh = (Ok tt, m') /\
    service "smtp_server" m' =
      Some (set_start_time (Some 1699999990) (set_status Running (set_pid (Some 4242)
        (mkServiceInfo "smtp_server" None Stopped (Some 1025) None 0%float 0%float
           "/usr/bin/python3 smtp_server.py" "/srv/app/logs/smtp_server.log")))) /\
    pid_files m' !! "smtp_server" = Some (PyStr.str 4242).
Proof.
  apply (save_then_reconcile recognised "smtp_server" 4242 fresh _ recognised_process
           1699999990); vm_compute; reflexivity.
Defined.

(** X3.  When reconciliation of a service returns and its PID file is still
    there, the file parsed to a PID that the system reported alive, and the
    service is [running] with that PID and a start time. *)
Theorem pid_file_survives_only_if_running (os : LoadOS) (service_name : string)
    (m m' : ServiceManager) (svc : ServiceInfo) (content : string) :
  service service_name m = Some svc ->
  load_pid os service_name m = (Ok tt, m') ->
  pid_files m' !! service_name = Some content ->
  exists p process t,
    PyStr.int (PyStr.strip content) = Some p /\
    load_pid_exists os p = true /\
    load_Process os p = Ok process /\
    _is_our_process process service_name = true /\
    create_time process = Ok t /\
    service service_name m' =
      Some (set_start_time (Some t) (set_status Running (set_pid (Some p) svc))).
Proof.
  intros Hs H Hf. unfold load_pid in H. run_in H.
  destruct (pid_files m !! service_name) as [c|] eqn:Hc.
  2:{ injection H as <-. congruence. }
  destruct (PyStr.int (PyStr.strip c)) as [p|] eqn:Hi; cbn in H.
  2:{ injection H as <-. cbn in Hf. rewrite lookup_delete_eq in Hf. discriminate. }
  paths H; try discriminate; injection H as <-; cbn in Hf;
    rewrite ?lookup_delete_eq in Hf; try discriminate.
  rewrite Hc in Hf. injection Hf as <-.
  eexists _, _, _. repeat (split; [eassumption|]).
  autorewrite with registry. now rewrite Hs.
Qed.

Lemma pid_file_survives_only_if_running_witness :
  exists p process t,
    PyStr.int (PyStr.strip "4242") = Some p /\
    load_pid_exists recognised p = true /\
    load_Process recognised p = Ok process /\
    _is_our_process process "smtp_server" = true /\
    create_time process = Ok t /\
    service "smtp_server" (snd (load_pid recognised "smtp_server" started)) =
      Some (set_start_time (Some t) (set_status Running (set_pid (Some p)
        (mkServiceInfo "smtp_server" (Some 4242) Running (Some 1025) (Some 1700000000)
           0%float 0%float "/usr/bin/python3 smtp_server.py"
           "/srv/app/logs/smtp_server.log")))).
Proof.
  apply (pid_file_survives_only_if_running recognised "smtp_server" started
           (snd (load_pid recognised "smtp_server" started)) _ "4242");
    vm_compute; reflexivity.
Defined.




(** ** The terminator: signals sent and what a result means *)

(** X5.  A graceful stop of a process that does not exit within the ten
    seconds of [wait] escalates: the graceful signal of the platform, the
    wait, then [kill]; when the kill is delivered the stop returns [True],
    every runtime field is reset and the PID file is removed. *)
Theorem stop_escalates_to_kill (os : StopOS) (service_name : string)
    (m : ServiceManager) (svc : ServiceInfo) (p : Z) :
  service service_name m = Some svc ->
  status svc <> Stopped ->
  pid svc = Some p ->
  p <> 0 ->
  stop_pid_exists os p = true ->
  stop_Process os p = Ok tt ->
  graceful_answer os m p = Ok tt ->
  stop_wait os p = Raise TimeoutExpired ->
  stop_kill os p = Ok tt ->
  exists m',
    stop_service os service_name false m = (Ok true, m') /\
    effects m' = effects m ++ [graceful_signal m p; EvWait p 10; EvKill p] /\
    (runtime <$> service service_name m') = Some (Stopped, None, None, 0%float, 0%float) /\
    pid_files m' !! service_name = None.
Proof.
  intros Hs Hst Hp Hnz He HP Hg Hw Hk.
  unfold stop_service. run. rewrite Hs.
  rewrite (bool_decide_eq_false_2 _ Hst), Hp. cbn.
  apply Z.eqb_neq in Hnz. rewrite Hnz. cbn. rewrite He, HP. cbn.
  unfold graceful_answer, graceful_signal in *.
  destruct (String.eqb (system m) "windows"); cbn; rewrite Hg; cbn; rewrite Hw; cbn;
    rewrite Hk; cbn; eexists; (split; [reflexivity|]);
    (split; [cbn; now rewrite <- !app_assoc|]);
    (split; [autorewrite with registry; rewrite Hs; reflexivity
            |cbn; apply lookup_delete_eq]).
Qed.

Lemma stop_escalates_to_kill_witness :
  exists m',
    stop_service stubborn_stop "smtp_server" false on_windows = (Ok true, m') /\
    effects m' = effects on_windows ++ [graceful_signal on_windows 4242; EvWait 4242 10;
                                        EvKill 4242] /\
    (runtime <$> service "smtp_server" m') = Some (Stopped, None, None, 0%float, 0%float) /\
    pid_files m' !! "smtp_server" = None.
Proof.
  apply (stop_escalates_to_kill stubborn_stop "smtp_server" on_windows
           (mkServiceInfo "smtp_server" (Some 4242) Running (Some 1025) (Some 1700000000)
              0%float 0%float "/usr/bin/python3 smtp_server.py"
              "/srv/app/logs/smtp_server.log") 4242);
    first [discriminate | vm_compute; reflexivity].
Defined.

(** X6.  Without [force], [stop_service] sends [kill] to a process only
    after [wait] has timed out on it. *)
Theorem kill_only_after_timeout (os : StopOS) (service_name : string)
    (m m' : ServiceManager) (r : Result bool) (p : Z) :
  stop_service os service_name false m = (r, m') ->
  In (EvKill p) (effects m') ->
  In (EvKill p) (effects m) \/ stop_wait os p = Raise TimeoutExpired.
Proof.
  intros H Hin. unfold stop_service in H. run_in H.
  destruct (service service_name m) as [svc|]; [|injection H as <- <-; now left].
  destruct (_ || _); [injection H as <- <-; now left|].
  paths H; injection H as <- <-; cbn in Hin; rewrite ?in_app_iff in Hin; cbn in Hin;
    repeat match goal with
           | H : _ \/ _ |- _ => destruct H
           | H : False |- _ => destruct H
           end;
    try discriminate; try (now left);
    match goal with
    | H : EvKill _ = EvKill _ |- _ => injection H as <-; now right
    end.
Qed.

Lemma kill_only_after_timeout_witness :
  In (EvKill 4242) (effects started) \/ stop_wait stubborn_stop 4242 = Raise TimeoutExpired.
Proof.
  apply (kill_only_after_timeout stubborn_stop "smtp_server" started
           (snd (stop_service stubborn_stop "smtp_server" false started)) (Ok true) 4242);
    [vm_compute; reflexivity | vm_compute; do 4 right; left; reflexivity].
Defined.

(** X7.  With [force], [stop_service] neither sends a graceful signal nor
    waits: it adds nothing to the effects or the single [kill] of the
    tracked PID. *)
Theorem force_stop_only_kills (os : StopOS) (service_name : string)
    (m m' : ServiceManager) (r : Result bool) :
  stop_service os service_name true m = (r, m') ->
  effects m' = effects m \/
  exists svc p, service service_name m = Some svc /\ pid svc = Some p /\
                effects m' = effects m ++ [EvKill p].
Proof.
  intros H. unfold stop_service in H. run_in H.
  destruct (service service_name m) as [svc|] eqn:Hs; [|injection H as <- <-; now left].
  destruct (_ || _) eqn:E; [injection H as <- <-; now left|].
  destruct (pid svc) as [p|] eqn:Hp; [|rewrite orb_true_r in E; discriminate].
  cbn [default] in H.
  paths H; injection H as <- <-; cbn; first [now left | right; exists svc, p; auto].
Qed.

Lemma force_stop_only_kills_witness :
  effects (snd (stop_service stubborn_stop "smtp_server" true started)) = effects started \/
  exists svc p, service "smtp_server" started = Some svc /\ pid svc = Some p /\
                effects (snd (stop_service stubborn_stop "smtp_server" true started)) =
                effects started ++ [EvKill p].
Proof.
  apply (force_stop_only_kills stubborn_stop "smtp_server" started _ (Ok true)).
  vm_compute. reflexivity.
Defined.

Lemma stop_success_record os n force m m' svc :
  coherent m = true ->
  service n m = Some svc ->
  stop_service os n force m = (Ok true, m') ->
  pid_files m' !! n = None /\
  exists svc', service n m' = Some svc' /\
    truthy (pid svc') = false /\
    (status svc <> Stopped -> truthy (pid svc) = true ->
     status svc' = Stopped /\ pid svc' = None).
Proof.
  intros Hc Hs H. pose proof (proj1 (coherent_spec m) Hc _ _ Hs) as Hw.
  destruct (decide (status svc = Stopped)) as [Hst|Hst].
  { rewrite (stop_service_early os n force m svc Hs (or_introl Hst)) in H.
    injection H as <-. destruct (well_tracked_stopped _ _ Hw Hst) as [Hp Hf].
    split; [exact Hf|]. exists svc. split; [exact Hs|]. rewrite Hp. split; [reflexivity|].
    contradiction. }
  destruct (truthy (pid svc)) eqn:Ht.
  2:{ rewrite (stop_service_early os n force m svc Hs (or_intror Ht)) in H.
      injection H as <-. split; [now apply (well_tracked_untracked _ _ Hw)|].
      exists svc. split; [exact Hs|]. split; [exact Ht|]. discriminate. }
  destruct (pid svc) as [p|] eqn:Hp; [|discriminate]. cbn in Ht.
  apply negb_true_iff, Z.eqb_neq in Ht.
  destruct (stop_service_tracked _ _ _ _ _ _ _ _ Hs Hst Hp Ht H)
    as (_ & _ & svc' & Hs' & [(_ & E1 & E2 & E3)|(? & _)]); [|discriminate].
  split; [exact E3|]. exists svc'. split; [exact Hs'|]. rewrite E2. auto.
Qed.


(** X8.  In a coherent manager, whenever [stop_service] returns [True] the
    service has no PID file and tracks no PID afterwards; if it was tracked
    before (status not [stopped], PID present) its status is [stopped]. *)
Theorem stop_success_clears_record (os : StopOS) (service_name : string) (force : bool)
    (m m' : ServiceManager) (svc : ServiceInfo) :
  coherent m = true ->
  service service_name m = Some svc ->
  stop_service os service_name force m = (Ok true, m') ->
  pid_files m' !! service_name = None /\
  exists svc', service service_name m' = Some svc' /\
    truthy (pid svc') = false /\
    (status svc <> Stopped -> truthy (pid svc) = true ->
     status svc' = Stopped /\ pid svc' = None).
Proof. apply stop_success_record. Qed.

Lemma stop_success_clears_record_witness :
  pid_files (snd (stop_service denied_stop "smtp_server" false observed)) !! "smtp_server"
    = None /\
  exists svc',
    service "smtp_server" (snd (stop_service denied_stop "smtp_server" false observed))
      = Some svc' /\
    truthy (pid svc') = false /\
    (Running <> Stopped -> truthy (Some 4242) = true ->
     status svc' = Stopped /\ pid svc' = None).
Proof.
  apply (stop_success_clears_record denied_stop "smtp_server" false observed _
           (mkServiceInfo "smtp_server" (Some 4242) Running (Some 1025) (Some 1700000000)
              12.5%float 32%float "/usr/bin/python3 smtp_server.py"
              "/srv/app/logs/smtp_server.log"));
    vm_compute; reflexivity.
Defined.

Lemma stop_failure_keeps_stopping os n force m m' svc :
  service n m = Some svc ->
  stop_service os n force m = (Ok false, m') ->
  service n m' = Some (set_status Stopping svc) /\
  pid_files m' = pid_files m.
Proof.
  intros Hs H.
  destruct (decide (status svc = Stopped)) as [Hst|Hst].
  { rewrite (stop_service_early os n force m svc Hs (or_introl Hst)) in H. discriminate. }
  destruct (truthy (pid svc)) eqn:Ht.
  2:{ rewrite (stop_service_early os n force m svc Hs (or_intror Ht)) in H. discriminate. }
  destruct (pid svc) as [p|] eqn:Hp; [|discriminate]. cbn in Ht.
  apply negb_true_iff, Z.eqb_neq in Ht.
  destruct (stop_service_tracked _ _ _ _ _ _ _ _ Hs Hst Hp Ht H)
    as (_ & _ & svc' & Hs' & [(? & _)|(_ & -> & E)]); [discriminate|]. auto.
Qed.


(** X9.  When [stop_service] returns [False] for a known service, the
    service is left [stopping]: its PID, the other runtime fields and the
    PID files are what they were. *)
Theorem stop_failure_keeps_record (os : StopOS) (service_name : string) (force : bool)
    (m m' : ServiceManager) (svc : ServiceInfo) :
  service service_name m = Some svc ->
  stop_service os service_name force m = (Ok false, m') ->
  service service_name m' = Some (set_status Stopping svc) /\
  pid_files m' = pid_files m.
Proof. apply stop_failure_keeps_stopping. Qed.

Lemma stop_failure_keeps_record_witness :
  service "smtp_server" (snd (stop_service failing_stop "smtp_server" false started)) =
    Some (set_status Stopping
            (mkServiceInfo "smtp_server" (Some 4242) Running (Some 1025) (Some 1700000000)
               0%float 0%float "/usr/bin/python3 smtp_server.py"
               "/srv/app/logs/smtp_server.log")) /\
  pid_files (snd (stop_service failing_stop "smtp_server" false started)) = pid_files started.
Proof.
  apply (stop_failure_keeps_record failing_stop "smtp_server" false started);
    vm_compute; reflexivity.
Defined.

(** ** One service at a time *)

Lemma start_service_frame os n bg m n' :
  n' <> n ->
  service n' (snd (start_service os n bg m)) = service n' m /\
  pid_files (snd (start_service os n bg m)) !! n' = pid_files m !! n'.
Proof.
  intros Hne. destruct (start_service_returns os n bg m) as (b & m' & ? & E & _).
  rewrite E. cbn. destruct (service n m) as [svc|] eqn:Hs.
  - destruct (start_service_outcomes _ _ _ _ _ _ _ Hs E) as (F & _). now apply F.
  - unfold start_service in E. run_in E. rewrite Hs in E. now injection E as <- <-.
Qed.

Lemma stop_service_frame os n force m n' :
  n' <> n ->
  service n' (snd (stop_service os n force m)) = service n' m /\
  pid_files (snd (stop_service os n force m)) !! n' = pid_files m !! n'.
Proof.
  intros Hne. destruct (stop_service_returns os n force m) as (b & m' & ? & E & _).
  rewrite E. cbn. destruct (service n m) as [svc|] eqn:Hs.
  2:{ unfold stop_service in E. run_in E. rewrite Hs in E. now injection E as <- <-. }
  destruct (decide (status svc = Stopped)) as [Hst|Hst].
  { rewrite (stop_service_early os n force m svc Hs (or_introl Hst)) in E.
    now injection E as <- <-. }
  destruct (truthy (pid svc)) eqn:Ht.
  2:{ rewrite (stop_service_early os n force m svc Hs (or_intror Ht)) in E.
      now injection E as <- <-. }
  destruct (pid svc) as [p|] eqn:Hp; [|discriminate]. cbn in Ht.
  apply negb_true_iff, Z.eqb_neq in Ht.
  destruct (stop_service_tracked _ _ _ _ _ _ _ _ Hs Hst Hp Ht E) as (F & _). now apply F.
Qed.

Lemma get_service_status_frame os n m n' :
  n' <> n ->
  service n' (snd (get_service_status os n m)) = service n' m /\
  pid_files (snd (get_service_status os n m)) !! n' = pid_files m !! n'.
Proof.
  intros Hne. destruct (get_service_status os n m) as [r m'] eqn:E. cbn.
  destruct (service n m) as [svc|] eqn:Hs.
  - destruct (get_service_status_outcomes _ _ _ _ _ _ Hs E) as (F & _). now apply F.
  - unfold get_service_status in E. run_in E. rewrite Hs in E. now injection E as <- <-.
Qed.

(** X10.  Starting, stopping or querying one service changes neither the
    registry entry nor the PID file of any other service. *)
Theorem other_services_untouched
    (os_start : StartOS) (os_stop : StopOS) (os_status : StatusOS)
    (service_name other : string) (background force : bool) (m : ServiceManager) :
  other <> service_name ->
  (service other (snd (start_service os_start service_name background m)) = service other m /\
   pid_files (snd (start_service os_start service_name background m)) !! other
     = pid_files m !! other) /\
  (service other (snd (stop_service os_stop service_name force m)) = service other m /\
   pid_files (snd (stop_service os_stop service_name force m)) !! other
     = pid_files m !! other) /\
  (service other (snd (get_service_status os_status service_name m)) = service other m /\
   pid_files (snd (get_service_status os_status service_name m)) !! other
     = pid_files m !! other).
Proof.
  intros Hne. split; [now apply start_service_frame|].
  split; [now apply stop_service_frame|now apply get_service_status_frame].
Qed.

Lemma other_services_untouched_witness :
  (service "smtp_server" (snd (start_service web_start "web_interface" true observed))
     = service "smtp_server" observed /\
   pid_files (snd (start_service web_start "web_interface" true observed)) !! "smtp_server"
     = pid_files observed !! "smtp_server") /\
  (service "smtp_server" (snd (stop_service dead_stop "web_interface" false observed))
     = service "smtp_server" observed /\
   pid_files (snd (stop_service dead_stop "web_interface" false observed)) !! "smtp_server"
     = pid_files observed !! "smtp_server") /\
  (service "smtp_server" (snd (get_service_status vanished "web_interface" observed))
     = service "smtp_server" observed /\
   pid_files (snd (get_service_status vanished "web_interface" observed)) !! "smtp_server"
     = pid_files observed !! "smtp_server").
Proof.
  apply (other_services_untouched web_start dead_stop vanished "web_interface" "smtp_server"
           true false observed).
  discriminate.
Defined.

(** ** What the result of a start means *)

Lemma start_service_result os n bg m svc b m' :
  service n m = Some svc ->
  start_service os n bg m = (Ok b, m') ->
  exists svc', service n m' = Some svc' /\
    (b = true /\ status svc' = Running /\ truthy (pid svc') = true \/
     b = false /\ status svc' = Errored).
Proof.
  intros Hs H.
  destruct (start_service_outcomes _ _ _ _ _ _ _ Hs H) as (_ & _ & svc' & Hs' & Hcase).
  exists svc'. split; [exact Hs'|].
  destruct Hcase as [(E & -> & ->)|(_ & [(c & _ & Hp & _ & _ & _ & Hb)|(-> & -> & _)])].
  - left. rewrite Hs in Hs'. injection Hs' as <-.
    apply running_and_alive_true in E as (E1 & p & E2 & E3 & _).
    repeat split; [exact E1|]. rewrite E2. cbn. apply Z.eqb_neq in E3. now rewrite E3.
  - destruct Hb as [(-> & Hst & _)|(-> & Hst & _)]; [left|right]; repeat split;
      try exact Hst. now rewrite Hp.
  - right. split; reflexivity.
Qed.

(** X11.  The result of [start_service] on a known service tells its final
    status: [True] comes with status [running] and a PID, [False] with
    status [error]. *)
Theorem start_result_tells_status (os : StartOS) (service_name : string) (background : bool)
    (m m' : ServiceManager) (svc : ServiceInfo) (b : bool) :
  service service_name m = Some svc ->
  start_service os service_name background m = (Ok b, m') ->
  exists svc', service service_name m' = Some svc' /\
    (b = true /\ status svc' = Running /\ truthy (pid svc') = true \/
     b = false /\ status svc' = Errored).
Proof. apply start_service_result. Qed.

Lemma start_result_tells_status_witness :
  exists svc',
    service "smtp_server" (snd (start_service crashing_start "smtp_server" true fresh))
      = Some svc' /\
    (false = true /\ status svc' = Running /\ truthy (pid svc') = true \/
     false = false /\ status svc' = Errored).
Proof.
  apply (start_result_tells_status crashing_start "smtp_server" true fresh _
           (mkServiceInfo "smtp_server" None Stopped (Some 1025) None 0%float 0%float
              "/usr/bin/python3 smtp_server.py" "/srv/app/logs/smtp_server.log") false);
    vm_compute; reflexivity.
Defined.

Lemma known_service n m : In n (keys m) -> exists svc, service n m = Some svc.
Proof.
  intros Hin. destruct (service n m) as [svc|] eqn:E; [eauto|].
  apply assoc_None_keys in E. contradiction.
Qed.

Lemma start_all_both_running os_smtp os_web m m' :
  keys m = ["smtp_server"; "web_interface"] ->
  start_all os_smtp os_web m = (Ok true, m') ->
  exists smtp web,
    service "smtp_server" m' = Some smtp /\ service "web_interface" m' = Some web /\
    status smtp = Running /\ truthy (pid smtp) = true /\
    status web = Running /\ truthy (pid web) = true.
Proof.
  intros Hk H.
  destruct (start_all_run os_smtp os_web m)
    as (r1 & m1 & r2 & m2 & _ & _ & E1 & _ & E2 & _ & E).
  rewrite E in H. injection H as Hr <-. apply andb_true_iff in Hr as [-> ->].
  destruct (known_service "smtp_server" m) as [s0 Hs0]; [rewrite Hk; now left|].
  destruct (start_service_result _ _ _ _ _ _ _ Hs0 E1)
    as (smtp & Hs1 & [(_ & St1 & P1)|(? & _)]); [|discriminate].
  pose proof (start_service_keys os_smtp "smtp_server" true m) as K1.
  rewrite E1 in K1. cbn in K1.
  destruct (known_service "web_interface" (emit (EvSleep 3) m1)) as [w0 Hw0];
    [change (keys (emit (EvSleep 3) m1)) with (keys m1); rewrite K1, Hk; right; now left|].
  destruct (start_service_result _ _ _ _ _ _ _ Hw0 E2)
    as (web & Hs2 & [(_ & St2 & P2)|(? & _)]); [|discriminate].
  destruct (start_service_frame os_web "web_interface" true (emit (EvSleep 3) m1)
              "smtp_server" ltac:(discriminate)) as [F _].
  rewrite E2 in F. cbn in F. exists smtp, web.
  split; [rewrite F; exact Hs1|]. auto 6.
Qed.


(** X12.  When [start_all] returns [True], both services of the registry
    are [running] with a PID. *)
Theorem start_all_success_both_running (os_smtp os_web : StartOS) (m m' : ServiceManager) :
  keys m = ["smtp_server"; "web_interface"] ->
  start_all os_smtp os_web m = (Ok true, m') ->
  exists smtp web,
    service "smtp_server" m' = Some smtp /\ service "web_interface" m' = Some web /\
    status smtp = Running /\ truthy (pid smtp) = true /\
    status web = Running /\ truthy (pid web) = true.
Proof. apply start_all_both_running. Qed.

Lemma start_all_success_both_running_witness :
  exists smtp web,
    service "smtp_server" (snd (start_all healthy_start web_start fresh)) = Some smtp /\
    service "web_interface" (snd (start_all healthy_start web_start fresh)) = Some web /\
    status smtp = Running /\ truthy (pid smtp) = true /\
    status web = Running /\ truthy (pid web) = true.
Proof.
  apply (start_all_success_both_running healthy_start web_start fresh);
    vm_compute; reflexivity.
Defined.

(** ** Restarting *)

Lemma spawned_app evs evs' : spawned (evs ++ evs') = spawned evs ++ spawned evs'.
Proof. unfold spawned. apply flat_map_app. Qed.

Lemma stop_service_spawned os n force m :
  spawned (effects (snd (stop_service os n force m))) = spawned (effects m).
Proof.
  destruct (stop_service os n force m) as [r m'] eqn:H. cbn.
  unfold stop_service in H. run_in H.
  destruct (service n m) as [svc|]; [|now injection H as <- <-].
  destruct (_ || _); [now injection H as <- <-|].
  paths H; injection H as <- <-; cbn; rewrite ?spawned_app; cbn;
    rewrite ?app_nil_r; reflexivity.
Qed.




Lemma restart_all_run stop_web stop_smtp start_smtp start_web m :
  exists r m1,
    stop_all stop_web stop_smtp false m = (Ok r, m1) /\
    spawned (effects m1) = spawned (effects m) /\
    keys m1 = keys m /\
    restart_all stop_web stop_smtp start_smtp start_web m =
      if r then start_all start_smtp start_web (emit (EvSleep 3) m1) else (Ok false, m1).
Proof.
  destruct (stop_all_run stop_web stop_smtp false m) as (r1 & m1 & r2 & m2 & E1 & E2 & E).
  exists (r1 && r2), m2. split; [exact E|].
  pose proof (stop_service_spawned stop_web "web_interface" false m) as S1.
  pose proof (stop_service_spawned stop_smtp "smtp_server" false m1) as S2.
  pose proof (stop_service_keys stop_web "web_interface" false m) as K1.
  pose proof (stop_service_keys stop_smtp "smtp_server" false m1) as K2.
  rewrite E1 in S1, K1. rewrite E2 in S2, K2. cbn in S1, S2, K1, K2.
  split; [now rewrite S2|]. split; [now rewrite K2|].
  unfold restart_all. unfold mbind at 1, M_bind at 1. rewrite E.
  destruct (r1 && r2); reflexivity.
Qed.

(** X14.  [restart_all] starts nothing when [stop_all] fails: it returns
    [False] in the state [stop_all] left, no process created.  When it
    returns [True], both services are [running] with a PID. *)
Theorem restart_all_outcome (stop_web stop_smtp : StopOS) (start_smtp start_web : StartOS)
    (m m' : ServiceManager) (b : bool) :
  keys m = ["smtp_server"; "web_interface"] ->
  restart_all stop_web stop_smtp start_smtp start_web m = (Ok b, m') ->
  exists r m1,
    stop_all stop_web stop_smtp false m = (Ok r, m1) /\
    (r = false -> b = false /\ m' = m1 /\ spawned (effects m') = spawned (effects m)) /\
    (b = true ->
     exists smtp web,
       service "smtp_server" m' = Some smtp /\ service "web_interface" m' = Some web /\
       status smtp = Running /\ truthy (pid smtp) = true /\
       status web = Running /\ truthy (pid web) = true).
Proof.
  intros Hk H.
  destruct (restart_all_run stop_web stop_smtp start_smtp start_web m)
    as (r & m1 & E1 & Sp & K & E).
  exists r, m1. split; [exact E1|]. rewrite E in H. split.
  - intros ->. injection H as <- <-. auto.
  - intros ->. destruct r; [|discriminate].
    apply (start_all_both_running start_smtp start_web (emit (EvSleep 3) m1) m');
      [change (keys (emit (EvSleep 3) m1)) with (keys m1); now rewrite K|exact H].
Qed.

Lemma restart_all_outcome_witness :
  exists r m1,
    stop_all dead_stop failing_stop false started = (Ok r, m1) /\
    (r = false ->
     false = false /\
     snd (restart_all dead_stop failing_stop healthy_start web_start started) = m1 /\
     spawned (effects (snd (restart_all dead_stop failing_stop healthy_start web_start
                              started))) = spawned (effects started)) /\
    (false = true ->
     exists smtp web,
       service "smtp_server"
         (snd (restart_all dead_stop failing_stop healthy_start web_start started))
         = Some smtp /\
       service "web_interface"
         (snd (restart_all dead_stop failing_stop healthy_start web_start started))
         = Some web /\
       status smtp = Running /\ truthy (pid smtp) = true /\
       status web = Running /\ truthy (pid web) = true).
Proof.
  apply (restart_all_outcome dead_stop failing_stop healthy_start web_start started);
    vm_compute; reflexivity.
Defined.

(** ** Status queries *)

Lemma get_service_status_stored os n m r m' :
  get_service_status os n m = (Ok r, m') -> r = service n m'.
Proof.
  intros H. unfold get_service_status, _update_service_stats in H. run_in H.
  destruct (service n m) as [svc|] eqn:Hs; [|injection H as <- <-; now rewrite Hs].
  paths H; try discriminate; injection H as <- <-; reflexivity.
Qed.

Lemma get_service_status_effects os n m :
  effects (snd (get_service_status os n m)) = effects m.
Proof.
  destruct (get_service_status os n m) as [r m'] eqn:E. cbn.
  destruct (service n m) as [svc|] eqn:Hs.
  - now destruct (get_service_status_outcomes _ _ _ _ _ _ Hs E) as (_ & _ & F & _).
  - unfold get_service_status in E. run_in E. rewrite Hs in E. now injection E as <- <-.
Qed.



(** X16.  When [_update_service_stats] returns, the two usage figures go
    together: both are the fresh samples, both are zero (a psutil error
    during sampling), or both are what they were.  Status, PID, start time
    and the PID files are not touched. *)
Theorem usage_figures_go_together (os : StatusOS) (service_name : string)
    (m m' : ServiceManager) (svc : ServiceInfo) :
  service service_name m = Some svc ->
  _update_service_stats os service_name m = (Ok tt, m') ->
  pid_files m' = pid_files m /\
  exists svc', service service_name m' = Some svc' /\
    status svc' = status svc /\ pid svc' = pid svc /\ start_time svc' = start_time svc /\
    ((cpu_percent svc', memory_mb svc') = (cpu_percent svc, memory_mb svc) \/
     (cpu_percent svc', memory_mb svc') = (0%float, 0%float) \/
     exists cpu rss, stats_cpu_percent os = Ok cpu /\ stats_rss os = Ok rss /\
                     (cpu_percent svc', memory_mb svc') = (cpu, mb_of_rss rss)).
Proof.
  intros Hs H. unfold _update_service_stats in H. run_in H. rewrite Hs in H.
  paths H; try discriminate; injection H as <-; (split; [reflexivity|]);
    autorewrite with registry; rewrite Hs; cbn; eexists; (split; [reflexivity|]); cbn;
    repeat (split; [reflexivity|]);
    first [ left; reflexivity | right; left; reflexivity
          | right; right; eexists _, _; repeat split; reflexivity ].
Qed.

Lemma usage_figures_go_together_witness :
  pid_files (snd (_update_service_stats sampled "smtp_server" started)) = pid_files started /\
  exists svc',
    service "smtp_server" (snd (_update_service_stats sampled "smtp_server" started))
      = Some svc' /\
    status svc' = Running /\ pid svc' = Some 4242 /\ start_time svc' = Some 1700000000 /\
    ((cpu_percent svc', memory_mb svc') = (0%float, 0%float) \/
     (cpu_percent svc', memory_mb svc') = (0%float, 0%float) \/
     exists cpu rss, stats_cpu_percent sampled = Ok cpu /\ stats_rss sampled = Ok rss /\
                     (cpu_percent svc', memory_mb svc') = (cpu, mb_of_rss rss)).
Proof.
  apply (usage_figures_go_together sampled "smtp_server" started
           (snd (_update_service_stats sampled "smtp_server" started))
           (mkServiceInfo "smtp_server" (Some 4242) Running (Some 1025) (Some 1700000000)
              0%float 0%float "/usr/bin/python3 smtp_server.py"
              "/srv/app/logs/smtp_server.log"));
    vm_compute; reflexivity.
Defined.

(** ** All services at once *)

Lemma dict_set_fresh {V} (k : string) (v : V) d :
  ~ In k (map fst d) -> dict_set k v d = d ++ [(k, v)].
Proof.
  induction d as [|[k' v'] d IH]; cbn; [reflexivity|]. intros Hn.
  destruct (String.eqb k' k) eqn:E.
  - apply String.eqb_eq in E. exfalso. apply Hn. now left.
  - rewrite IH; [reflexivity|]. intros Hin. apply Hn. now right.
Qed.

Lemma all_status_loop_spec os names : forall done m d m',
  List.NoDup (done ++ names) ->
  all_status_loop os names (map (fun n => (n, service n m)) done) m = (Ok d, m') ->
  d = map (fun n => (n, service n m')) (done ++ names) /\
  effects m' = effects m /\ keys m' = keys m.
Proof.
  induction names as [|n rest IH]; intros done m d m' Hnd H.
  - cbn in H. injection H as <- <-. now rewrite app_nil_r.
  - cbn [all_status_loop] in H. unfold mbind at 1, M_bind at 1 in H.
    destruct (get_service_status (os n) n m) as [[r|e] m1] eqn:E; [|discriminate].
    pose proof (get_service_status_stored _ _ _ _ _ E) as ->.
    pose proof (get_service_status_effects (os n) n m) as Fe.
    pose proof (get_service_status_keys (os n) n m) as Fk.
    rewrite E in Fe, Fk. cbn in Fe, Fk.
    assert (Hn : ~ In n done).
    { intros Hin. apply NoDup_remove_2 in Hnd. apply Hnd. apply in_or_app. now left. }
    rewrite dict_set_fresh in H by (rewrite map_map; cbn; now rewrite map_id).
    assert (Hacc : map (fun x => (x, service x m)) done ++ [(n, service n m1)]
                   = map (fun x => (x, service x m1)) (done ++ [n])).
    { rewrite map_app. cbn. f_equal. apply map_ext_in. intros x Hx.
      assert (x <> n) by (intros ->; contradiction).
      pose proof (get_service_status_frame (os n) n m x ltac:(assumption)) as [F _].
      rewrite E in F. cbn in F. now rewrite F. }
    rewrite Hacc in H.
    destruct (IH (done ++ [n]) m1 d m') as (Hd & He & Hk).
    + now rewrite <- app_assoc.
    + exact H.
    + rewrite <- app_assoc in Hd. cbn in Hd. split; [exact Hd|].
      split; [now rewrite He|now rewrite Hk].
Qed.

(** X17.  When [get_all_status] returns, its dictionary has one entry per
    service, in registry order, and every entry is the one the registry
    holds at the end of the call; no process was signalled or created. *)
Theorem get_all_status_is_the_registry (os : string -> StatusOS) (m m' : ServiceManager)
    (d : list (string * option ServiceInfo)) :
  List.NoDup (keys m) ->
  get_all_status os m = (Ok d, m') ->
  d = map (fun n => (n, service n m')) (keys m) /\
  effects m' = effects m /\
  keys m' = keys m.
Proof.
  intros Hnd H. unfold get_all_status in H. unfold mbind at 1, M_bind at 1, get in H.
  apply (all_status_loop_spec os (keys m) [] m d m' Hnd H).
Qed.

Lemma get_all_status_is_the_registry_witness :
  fst (get_all_status (fun _ => vanished) observed) =
    Ok (map (fun n => (n, service n (snd (get_all_status (fun _ => vanished) observed))))
          (keys observed)) /\
  effects (snd (get_all_status (fun _ => vanished) observed)) = effects observed /\
  keys (snd (get_all_status (fun _ => vanished) observed)) = keys observed.
Proof.
  destruct (get_all_status_is_the_registry (fun _ => vanished) observed
              (snd (get_all_status (fun _ => vanished) observed))
              (map (fun n => (n, service n (snd (get_all_status (fun _ => vanished) observed))))
                 (keys observed))) as (H1 & H2 & H3).
  - vm_compute. repeat constructor; cbn; intuition discriminate.
  - vm_compute. reflexivity.
  - split; [vm_compute; reflexivity|]. split; [exact H2|exact H3].
Defined.

(** ** The monitor *)




(** ** The argument vector of a launch *)

Lemma no_space_string_of_list l :
  no_space (string_of_list_ascii l) = forallb (fun c => negb (PyStr.isspace c)) l.
Proof. induction l as [|c l IH]; cbn; [reflexivity|now rewrite IH]. Qed.

Lemma forallb_reverse {A} (f : A -> bool) l : forallb f (rev l) = forallb f l.
Proof.
  induction l as [|a l IH]; [reflexivity|]. cbn [rev].
  rewrite forallb_app, IH. cbn. rewrite andb_true_r. apply andb_comm.
Qed.

Lemma split_go_word cur w rest :
  no_space w = true -> cur <> [] \/ w <> "" ->
  PyStr.split_go cur (w ++ String " " rest)%string =
  string_of_list_ascii (rev cur ++ list_ascii_of_string w) :: PyStr.split_go [] rest.
Proof.
  revert cur. induction w as [|c w IH]; intros cur Hw Hne.
  - rewrite append_nil_l. cbn [PyStr.split_go]. change (PyStr.isspace " ") with true.
    cbn iota. destruct cur as [|a cur]; [destruct Hne; contradiction|].
    cbn [list_ascii_of_string]. now rewrite app_nil_r.
  - rewrite append_cons. cbn [PyStr.split_go]. cbn in Hw.
    apply andb_true_iff in Hw as [Hc Hw]. apply negb_true_iff in Hc. rewrite Hc.
    rewrite IH; [|exact Hw|left; discriminate].
    cbn [rev list_ascii_of_string]. now rewrite <- app_assoc.
Qed.

Lemma split_go_elements s : forall cur w,
  forallb (fun c => negb (PyStr.isspace c)) cur = true ->
  In w (PyStr.split_go cur s) -> no_space w = true /\ w <> "".
Proof.
  assert (Flush : forall cur w,
             forallb (fun c => negb (PyStr.isspace c)) cur = true ->
             In w match cur with
                  | [] => []
                  | _ => [string_of_list_ascii (rev cur)]
                  end ->
             no_space w = true /\ w <> "").
  { intros [|a cur] w Hc Hin; [destruct Hin|]. destruct Hin as [<-|[]]. split.
    - rewrite no_space_string_of_list, forallb_reverse. exact Hc.
    - cbn [rev]. destruct (rev cur); discriminate. }
  induction s as [|c s IH]; intros cur w Hcur Hin; cbn [PyStr.split_go] in Hin.
  - now apply (Flush cur).
  - destruct (PyStr.isspace c) eqn:Ec.
    + apply in_app_or in Hin as [Hin|Hin]; [now apply (Flush cur)|].
      now apply (IH [] w).
    + apply (IH (c :: cur) w); [|exact Hin]. cbn. now rewrite Ec.
Qed.

(** X19.  With an interpreter path that is not empty and holds no white
    space, the argument vector of each service of the registry is the
    interpreter followed by the script of the service. *)
Theorem launch_argv (sys_executable base_dir service_name : string) (svc : ServiceInfo) :
  no_space sys_executable = true ->
  sys_executable <> "" ->
  assoc service_name (registry sys_executable base_dir) = Some svc ->
  PyStr.split (command svc) = [sys_executable; (service_name ++ ".py")%string].
Proof.
  intros Hn He Hs. unfold registry in Hs. cbn [assoc] in Hs.
  destruct (String.eqb "smtp_server" service_name) eqn:E1.
  - apply String.eqb_eq in E1. subst service_name. injection Hs as <-.
    cbn [command]. unfold PyStr.split.
    change (sys_executable ++ " smtp_server.py")%string
      with (sys_executable ++ String " " "smtp_server.py")%string.
    rewrite split_go_word by auto. cbn [rev app].
    now rewrite string_of_list_ascii_of_string.
  - destruct (String.eqb "web_interface" service_name) eqn:E2; [|discriminate].
    apply String.eqb_eq in E2. subst service_name. injection Hs as <-.
    cbn [command]. unfold PyStr.split.
    change (sys_executable ++ " web_interface.py")%string
      with (sys_executable ++ String " " "web_interface.py")%string.
    rewrite split_go_word by auto. cbn [rev app].
    now rewrite string_of_list_ascii_of_string.
Qed.

Lemma launch_argv_witness :
  PyStr.split "/usr/bin/python3 web_interface.py" =
    ["/usr/bin/python3"; ("web_interface" ++ ".py")%string].
Proof.
  apply (launch_argv "/usr/bin/python3" "/srv/app" "web_interface"
           (mkServiceInfo "web_interface" None Stopped (Some 5000) None 0%float 0%float
              "/usr/bin/python3 web_interface.py" "/srv/app/logs/web_interface.log"));
    [reflexivity | discriminate | reflexivity].
Defined.

(** X20.  Whatever the command of a service, no argument handed to [Popen]
    is empty or contains white space: an interpreter path with a blank in
    it is never passed as one argument. *)
Theorem launch_arguments_have_no_blank (cmd w : string) :
  In w (PyStr.split cmd) ->
  no_space w = true /\ w <> "" /\
  forall path, no_space path = false -> w <> path.
Proof.
  intros Hin. destruct (split_go_elements cmd [] w eq_refl Hin) as [H1 H2].
  split; [exact H1|]. split; [exact H2|]. intros path Hp ->. congruence.
Qed.

Lemma launch_arguments_have_no_blank_witness :
  no_space "C:\Program" = true /\ "C:\Program" <> "" /\
  forall path, no_space path = false -> "C:\Program" <> path.
Proof.
  apply (launch_arguments_have_no_blank
           "C:\Program Files\Python\python.exe smtp_server.py" "C:\Program").
  vm_compute. left. reflexivity.
Defined.

(** ** What a start does to the outside world *)

(** X21.  Unless the service is [running] with a live PID, a background
    [start_service] whose log file opens calls [Popen] exactly once, with
    the words of the service's command, and sleeps the two seconds of grace
    only if a child was created; nothing is signalled. *)
Theorem start_launches_once (os : StartOS) (service_name : string)
    (m m' : ServiceManager) (svc : ServiceInfo) (r : Result bool) :
  service service_name m = Some svc ->
  running_and_alive (start_pid_exists os) svc = false ->
  start_open_log os = Ok tt ->
  start_service os service_name true m = (r, m') ->
  effects m' =
    effects m ++
    EvPopen (PyStr.split (command svc)) true (start_Popen os) ::
    match start_Popen os with
    | Ok _ => [EvSleep 2]
    | Raise _ => []
    end.
Proof.
  intros Hs Hra Hlog H. unfold start_service in H. run_in H.
  rewrite Hs, Hra, Hlog in H. cbn in H.
  destruct (start_Popen os) as [child|e]; cbn in H.
  - destruct (grace_pid_exists os (Z.pos child)); cbn in H; injection H as <- <-; cbn;
      now rewrite <- app_assoc.
  - injection H as <- <-. reflexivity.
Qed.

Lemma start_launches_once_witness :
  effects (snd (start_service crashing_start "smtp_server" true fresh)) =
    effects fresh ++
    EvPopen (PyStr.split "/usr/bin/python3 smtp_server.py") true (start_Popen crashing_start) ::
    match start_Popen crashing_start with
    | Ok _ => [EvSleep 2]
    | Raise _ => []
    end.
Proof.
  apply (start_launches_once crashing_start "smtp_server" fresh _
           (mkServiceInfo "smtp_server" None Stopped (Some 1025) None 0%float 0%float
              "/usr/bin/python3 smtp_server.py" "/srv/app/logs/smtp_server.log")
           (Ok false));
    vm_compute; reflexivity.
Defined.

(** ** Invariants of the manager *)



(** X23.  The invariant of the data model (a PID is present exactly in the
    statuses [starting], [running] and [stopping]) is kept by every
    [stop_service], by every [get_service_status] and by every
    [start_service] that returns [True]. *)
Theorem pid_invariant_kept (m : ServiceManager) :
  invariant m = true ->
  (forall os n force, invariant (snd (stop_service os n force m)) = true) /\
  (forall os n, invariant (snd (get_service_status os n m)) = true) /\
  (forall os n background m',
      start_service os n background m = (Ok true, m') -> invariant m' = true).
Proof.
  intros Hi. split; [|split].
  - intros os n force.
    destruct (stop_service_returns os n force m) as (b & m' & ? & E & _). rewrite E.
    now apply (stop_service_invariant _ _ _ _ _ _ Hi E).
  - intros os n. destruct (get_service_status os n m) as [r m'] eqn:E.
    now apply (get_service_status_invariant _ _ _ _ _ Hi E).
  - intros os n bg m' E. now apply (start_service_invariant_on_success _ _ _ _ _ Hi E).
Qed.

Lemma pid_invariant_kept_witness :
  (forall os n force, invariant (snd (stop_service os n force observed)) = true) /\
  (forall os n, invariant (snd (get_service_status os n observed)) = true) /\
  (forall os n background m',
      start_service os n background observed = (Ok true, m') -> invariant m' = true).
Proof. apply (pid_invariant_kept observed). vm_compute. reflexivity. Defined.

(** X24.  A manager that [__init__] returns is coherent with the PID files
    it leaves, satisfies the invariant of the data model and holds the two
    services of the registry, provided PID 0 is not taken for a service. *)
Theorem init_establishes_invariants
    (sys_executable base_dir platform_system : string) (disk : gmap string string)
    (os : string -> LoadOS) (m : ServiceManager) :
  (forall n, pid_zero_is_foreign (os n) n) ->
  init sys_executable base_dir platform_system disk os = (Ok tt, m) ->
  coherent m = true /\ invariant m = true /\ keys m = ["smtp_server"; "web_interface"].
Proof. apply init_coherent. Qed.

Lemma init_establishes_invariants_witness :
  coherent fresh = true /\ invariant fresh = true /\
  keys fresh = ["smtp_server"; "web_interface"].
Proof.
  apply (init_establishes_invariants python "/srv/app" "Linux" ∅
           (fun _ => no_process) fresh);
    [intros n H; discriminate H | reflexivity].
Defined.

(** ** Further outcomes of reconciliation and of [stop_all] *)

(** X25.  A recorded PID whose process cannot be inspected - the handle or
    the command line raises [NoSuchProcess] or [AccessDenied] - is treated
    as stale: the PID file is removed, the registry is left as it was and
    [_load_pids] goes on without raising. *)
Theorem inaccessible_process_is_dropped (os : LoadOS) (service_name : string)
    (m : ServiceManager) (content : string) (p : Z) :
  pid_files m !! service_name = Some content ->
  PyStr.int (PyStr.strip content) = Some p ->
  load_pid_exists os p = true ->
  match load_Process os p with
  | Ok process => exists e, cmdline process = Raise e /\ psutil_error e = true
  | Raise e => psutil_error e = true
  end ->
  load_pid os service_name m = (Ok tt, with_pid_files (delete service_name) m).
Proof.
  intros Hf Hi He Hp. unfold load_pid. run. rewrite Hf, Hi, He. cbn.
  destruct (load_Process os p) as [process|e]; cbn.
  - destruct Hp as (e & Hc & _). unfold _is_our_process. now rewrite Hc.
  - destruct e; try discriminate Hp; reflexivity.
Qed.

Lemma inaccessible_process_is_dropped_witness :
  load_pid (mkLoadOS (fun _ => true) (fun _ => Raise AccessDenied)) "smtp_server" started =
    (Ok tt, with_pid_files (delete "smtp_server") started).
Proof.
  apply (inaccessible_process_is_dropped
           (mkLoadOS (fun _ => true) (fun _ => Raise AccessDenied)) "smtp_server" started
           "4242" 4242); vm_compute; reflexivity.
Defined.

(** X26.  In a coherent manager with the two services of the registry, when
    [stop_all] returns [True] neither service has a PID file nor tracks a
    PID. *)
Theorem stop_all_success_clears_records (os_web os_smtp : StopOS) (force : bool)
    (m m' : ServiceManager) :
  coherent m = true ->
  keys m = ["smtp_server"; "web_interface"] ->
  stop_all os_web os_smtp force m = (Ok true, m') ->
  pid_files m' !! "smtp_server" = None /\ pid_files m' !! "web_interface" = None /\
  exists smtp web,
    service "smtp_server" m' = Some smtp /\ service "web_interface" m' = Some web /\
    truthy (pid smtp) = false /\ truthy (pid web) = false.
Proof.
  intros Hc Hk H.
  destruct (stop_all_run os_web os_smtp force m) as (r1 & m1 & r2 & m2 & E1 & E2 & E).
  rewrite E in H. injection H as Hr <-. apply andb_true_iff in Hr as [-> ->].
  destruct (known_service "web_interface" m) as [w0 Hw0]; [rewrite Hk; right; now left|].
  destruct (stop_success_record _ _ _ _ _ _ Hc Hw0 E1) as (Fw & web & Hw1 & Tw & _).
  pose proof (stop_service_coherent _ _ _ _ _ _ Hc E1) as Hc1.
  pose proof (stop_service_keys os_web "web_interface" force m) as K1.
  rewrite E1 in K1. cbn in K1.
  destruct (known_service "smtp_server" m1) as [s0 Hs0]; [rewrite K1, Hk; now left|].
  destruct (stop_success_record _ _ _ _ _ _ Hc1 Hs0 E2) as (Fs & smtp & Hs1 & Ts & _).
  destruct (stop_service_frame os_smtp "smtp_server" force m1 "web_interface"
              ltac:(discriminate)) as [F1 F2].
  rewrite E2 in F1, F2. cbn in F1, F2.
  split; [exact Fs|]. split; [now rewrite F2|].
  exists smtp, web. split; [exact Hs1|]. split; [now rewrite F1|]. auto.
Qed.

Lemma stop_all_success_clears_records_witness :
  pid_files (snd (stop_all dead_stop denied_stop false observed)) !! "smtp_server" = None /\
  pid_files (snd (stop_all dead_stop denied_stop false observed)) !! "web_interface" = None /\
  exists smtp web,
    service "smtp_server" (snd (stop_all dead_stop denied_stop false observed)) = Some smtp /\
    service "web_interface" (snd (stop_all dead_stop denied_stop false observed)) = Some web /\
    truthy (pid smtp) = false /\ truthy (pid web) = false.
Proof.
  apply (stop_all_success_clears_records dead_stop denied_stop false observed);
    vm_compute; reflexivity.
Defined.
